(** * The route layer of the social-networking backend ([src/server/routes.ts])

    The class [Routes] binds HTTP verbs and paths to sequences of calls
    against the concept modules [Sessioning], [Authing], [Posting],
    [Friending], [Commenting] and [Scheduling], the response formatter
    [Responses] and the [ObjectId] constructor of the database driver.
    None of those modules is part of the route layer: a handler is embedded
    here as a program over their calls, and its behaviour is studied for
    every implementation of the calls.

    What the embedding takes for granted:
    - the methods of [Sessioning] are synchronous (the handlers use their
      results, and rely on their exceptions, without [await]); every other
      concept call is awaited or returned, so that its rejection is the
      rejection of the handler;
    - a handler is run alone: the world changes only through its own calls;
    - the [Router.validate] decorators run in the framework before the
      handler and are not part of its body. *)

From Stdlib Require Import NArith String Ascii List.
From stdpp Require Import base option gmap strings list.
Import ListNotations.

Set Warnings "-register-all".

Local Open Scope string_scope.
Local Open Scope list_scope.

(** ** Data model *)

(** A document id of the database: twelve bytes, written as 24 hexadecimal
    digits in a path parameter. *)
Definition ObjectId := N.

(** [SessionDoc] is the session object of the HTTP framework. The handlers
    never read its fields, they hand the object itself to [Sessioning],
    which mutates it in place: the embedding passes a reference to it. *)
Definition SessionDoc := N.

(** [new Date(s)] never throws: it wraps the text it is given. *)
Inductive Date := Date_new (iso : string).

(** The literal union ["focus" | "social"]. *)
Inductive EventType := focus | social.

(** Values that cross the boundary as JSON: what handlers return and what
    they pass through without looking inside. *)
Inductive Value :=
| VUndefined
| VString (s : string)
| VObjectId (o : ObjectId)
| VArray (l : list Value)
| VObject (fields : list (string * Value)).

Definition PostOptions := Value.
Definition CommentOptions := Value.

(** The part of a user document the handlers read: [._id]. *)
Record UserDoc := { _id : ObjectId; username : string }.

(** Result of the three [create] calls whose fields the handlers read:
    [created.msg] and [created.post] / [created.comment] / [created.event]
    (the second field is called [doc] here for the three of them). *)
Record Created := { msg : string; doc : Value }.

(** A user document as the JSON a handler returns. *)
Definition user_json (u : UserDoc) : Value :=
  VObject [("_id", VObjectId (_id u)); ("username", VString (username u))].

(** Errors thrown by the calls. *)
Inductive Err :=
| NotFoundError (m : string)
| NotAllowedError (m : string)
| UnauthenticatedError (m : string)
| BadValuesError (m : string)
| BSONError (m : string).

(** JavaScript truthiness of an optional string: [undefined] and the empty
    string are falsy. *)
Definition truthy (s : option string) : option string :=
  match s with
  | Some "" => None
  | other => other
  end.

(** ** The calls a handler makes *)

Inductive Call :=
(* Sessioning: synchronous, never awaited by the handlers *)
| Sessioning_getUser (session : SessionDoc)
| Sessioning_isLoggedOut (session : SessionDoc)
| Sessioning_start (session : SessionDoc) (user : ObjectId)
| Sessioning_end (session : SessionDoc)
(* Authing *)
| Authing_getUserById (user : ObjectId)
| Authing_getUsers
| Authing_getUserByUsername (name : string)
| Authing_create (name password : string)
| Authing_updateUsername (user : ObjectId) (name : string)
| Authing_updatePassword (user : ObjectId) (currentPassword newPassword : string)
| Authing_delete (user : ObjectId)
| Authing_authenticate (name password : string)
| Authing_idsToUsernames (ids : list ObjectId)
(* Posting *)
| Posting_getByAuthor (author : ObjectId)
| Posting_getPosts
| Posting_create (user : ObjectId) (content : string) (options : option PostOptions)
| Posting_assertAuthorIsUser (oid user : ObjectId)
| Posting_update (oid : ObjectId) (content : option string) (options : option PostOptions)
| Posting_delete (oid : ObjectId)
(* Friending *)
| Friending_getFriends (user : ObjectId)
| Friending_removeFriend (user friend : ObjectId)
| Friending_getRequests (user : ObjectId)
| Friending_sendRequest (from to : ObjectId)
| Friending_removeRequest (from to : ObjectId)
| Friending_acceptRequest (from to : ObjectId)
| Friending_rejectRequest (from to : ObjectId)
(* Commenting *)
| Commenting_getCommentsForPost (post : ObjectId)
| Commenting_create (post user : ObjectId) (content : string) (options : option CommentOptions)
| Commenting_assertAuthorIsUser (comment user : ObjectId)
| Commenting_update (comment : ObjectId) (content : option string) (options : option CommentOptions)
| Commenting_delete (comment : ObjectId)
(* Scheduling *)
| Scheduling_getEventsByUser (user : ObjectId)
| Scheduling_create (user : ObjectId) (name : string) (startTime endTime : Date) (type : EventType)
| Scheduling_assertUserIsOwner (event user : ObjectId)
| Scheduling_update (event : ObjectId) (name : option string)
    (startTime endTime : option Date) (type : option EventType)
| Scheduling_delete (event : ObjectId)
(* Responses *)
| Responses_posts (posts : Value)
| Responses_post (post : Value)
| Responses_friendRequests (requests : Value)
| Responses_comments (comments : Value)
| Responses_comment (comment : Value)
| Responses_events (events : Value)
| Responses_event (event : Value)
(* mongodb *)
| ObjectId_new (id : string).

(** What a call hands back when it does not throw. *)
Definition resp (c : Call) : Type :=
  match c with
  | Sessioning_getUser _ => ObjectId
  | Sessioning_isLoggedOut _ | Sessioning_start _ _ | Sessioning_end _ => unit
  | Authing_getUserById _ | Authing_getUserByUsername _ | Authing_authenticate _ _ => UserDoc
  | Posting_create _ _ _ | Commenting_create _ _ _ _ | Scheduling_create _ _ _ _ _ => Created
  | Posting_assertAuthorIsUser _ _ | Commenting_assertAuthorIsUser _ _
  | Scheduling_assertUserIsOwner _ _ => unit
  | Friending_getFriends _ => list ObjectId
  | ObjectId_new _ => ObjectId
  | _ => Value
  end.

(** The module a call belongs to. *)
Inductive Module_ := Sessioning | Authing | Posting | Friending | Commenting
                   | Scheduling | Responses | Mongodb.

Definition module_of (c : Call) : Module_ :=
  match c with
  | Sessioning_getUser _ | Sessioning_isLoggedOut _ | Sessioning_start _ _
  | Sessioning_end _ => Sessioning
  | Authing_getUserById _ | Authing_getUsers | Authing_getUserByUsername _
  | Authing_create _ _ | Authing_updateUsername _ _ | Authing_updatePassword _ _ _
  | Authing_delete _ | Authing_authenticate _ _ | Authing_idsToUsernames _ => Authing
  | Posting_getByAuthor _ | Posting_getPosts | Posting_create _ _ _
  | Posting_assertAuthorIsUser _ _ | Posting_update _ _ _ | Posting_delete _ => Posting
  | Friending_getFriends _ | Friending_removeFriend _ _ | Friending_getRequests _
  | Friending_sendRequest _ _ | Friending_removeRequest _ _
  | Friending_acceptRequest _ _ | Friending_rejectRequest _ _ => Friending
  | Commenting_getCommentsForPost _ | Commenting_create _ _ _ _
  | Commenting_assertAuthorIsUser _ _ | Commenting_update _ _ _
  | Commenting_delete _ => Commenting
  | Scheduling_getEventsByUser _ | Scheduling_create _ _ _ _ _
  | Scheduling_assertUserIsOwner _ _ | Scheduling_update _ _ _ _ _
  | Scheduling_delete _ => Scheduling
  | Responses_posts _ | Responses_post _ | Responses_friendRequests _
  | Responses_comments _ | Responses_comment _ | Responses_events _
  | Responses_event _ => Responses
  | ObjectId_new _ => Mongodb
  end.

(** ** Handler programs

    The fragment of TypeScript the handlers are written in: a call whose
    result is bound to a name, [console.log], [return], and [try]/[catch]
    (which no handler uses). A call that throws ends the enclosing program
    unless a [TryCatch] surrounds it. *)
Inductive Prog (R : Type) :=
| Ret (r : R)
| Do (c : Call) (k : resp c -> Prog R)
| Log (line : string) (k : Prog R)
| TryCatch (body : Prog R) (handler : Err -> Prog R).

Arguments Ret {R} r.
Arguments Do {R} c k.
Arguments Log {R} line k.
Arguments TryCatch {R} body handler.

Declare Scope prog_scope.
Delimit Scope prog_scope with prog.
Bind Scope prog_scope with Prog.

Notation "'let!' x ':=' c 'in' k" := (Do c (fun x => k))
  (at level 10, x binder, c at level 100, k at level 200) : prog_scope.
Notation "'do!' c 'in' k" := (Do c (fun _ => k))
  (at level 10, c at level 100, k at level 200) : prog_scope.
Notation "'console.log' line 'in' k" := (Log line k)
  (at level 10, line at level 9, k at level 200) : prog_scope.

Local Open Scope prog_scope.

(** ** The handlers of [class Routes] *)
Module Routes.

Definition getSessionUser (session : SessionDoc) : Prog Value :=
  let! user := Sessioning_getUser session in
  let! u := Authing_getUserById user in
  Ret (user_json u).

Definition getUsers : Prog Value :=
  let! us := Authing_getUsers in
  Ret us.

Definition getUser (username : string) : Prog Value :=
  let! u := Authing_getUserByUsername username in
  Ret (user_json u).

Definition createUser (session : SessionDoc) (username password : string) : Prog Value :=
  do! Sessioning_isLoggedOut session in
  let! r := Authing_create username password in
  Ret r.

Definition updateUsername (session : SessionDoc) (username : string) : Prog Value :=
  let! user := Sessioning_getUser session in
  let! r := Authing_updateUsername user username in
  Ret r.

Definition updatePassword (session : SessionDoc) (currentPassword newPassword : string)
  : Prog Value :=
  let! user := Sessioning_getUser session in
  let! r := Authing_updatePassword user currentPassword newPassword in
  Ret r.

Definition deleteUser (session : SessionDoc) : Prog Value :=
  let! user := Sessioning_getUser session in
  do! Sessioning_end session in
  let! r := Authing_delete user in
  Ret r.

Definition logIn (session : SessionDoc) (username password : string) : Prog Value :=
  let! u := Authing_authenticate username password in
  do! Sessioning_start session (_id u) in
  Ret (VObject [("msg", VString "Logged in!")]).

Definition logOut (session : SessionDoc) : Prog Value :=
  do! Sessioning_end session in
  Ret (VObject [("msg", VString "Logged out!")]).

Definition getPosts (author : option string) : Prog Value :=
  match truthy author with
  | Some author =>
      let! u := Authing_getUserByUsername author in
      let id := _id u in
      let! posts := Posting_getByAuthor id in
      let! r := Responses_posts posts in
      Ret r
  | None =>
      let! posts := Posting_getPosts in
      let! r := Responses_posts posts in
      Ret r
  end.

Definition createPost (session : SessionDoc) (content : string)
    (options : option PostOptions) : Prog Value :=
  let! user := Sessioning_getUser session in
  let! created := Posting_create user content options in
  let! post := Responses_post (doc created) in
  Ret (VObject [("msg", VString (msg created)); ("post", post)]).

Definition updatePost (session : SessionDoc) (id : string) (content : option string)
    (options : option PostOptions) : Prog Value :=
  let! user := Sessioning_getUser session in
  let! oid := ObjectId_new id in
  do! Posting_assertAuthorIsUser oid user in
  let! r := Posting_update oid content options in
  Ret r.

Definition deletePost (session : SessionDoc) (id : string) : Prog Value :=
  let! user := Sessioning_getUser session in
  let! oid := ObjectId_new id in
  do! Posting_assertAuthorIsUser oid user in
  let! r := Posting_delete oid in
  Ret r.

Definition getFriends (session : SessionDoc) : Prog Value :=
  let! user := Sessioning_getUser session in
  let! friends := Friending_getFriends user in
  let! r := Authing_idsToUsernames friends in
  Ret r.

Definition removeFriend (session : SessionDoc) (friend : string) : Prog Value :=
  let! user := Sessioning_getUser session in
  let! f := Authing_getUserByUsername friend in
  let friendOid := _id f in
  let! r := Friending_removeFriend user friendOid in
  Ret r.

Definition getRequests (session : SessionDoc) : Prog Value :=
  let! user := Sessioning_getUser session in
  let! requests := Friending_getRequests user in
  let! r := Responses_friendRequests requests in
  Ret r.

Definition sendFriendRequest (session : SessionDoc) (to : string) : Prog Value :=
  let! user := Sessioning_getUser session in
  let! t := Authing_getUserByUsername to in
  let toOid := _id t in
  let! r := Friending_sendRequest user toOid in
  Ret r.

Definition removeFriendRequest (session : SessionDoc) (to : string) : Prog Value :=
  let! user := Sessioning_getUser session in
  let! t := Authing_getUserByUsername to in
  let toOid := _id t in
  let! r := Friending_removeRequest user toOid in
  Ret r.

Definition acceptFriendRequest (session : SessionDoc) (from : string) : Prog Value :=
  let! user := Sessioning_getUser session in
  let! f := Authing_getUserByUsername from in
  let fromOid := _id f in
  let! r := Friending_acceptRequest fromOid user in
  Ret r.

Definition rejectFriendRequest (session : SessionDoc) (from : string) : Prog Value :=
  let! user := Sessioning_getUser session in
  let! f := Authing_getUserByUsername from in
  let fromOid := _id f in
  let! r := Friending_rejectRequest fromOid user in
  Ret r.

Definition getComments (postId : string) : Prog Value :=
  let! postObjectId := ObjectId_new postId in
  let! comments := Commenting_getCommentsForPost postObjectId in
  let! r := Responses_comments comments in
  Ret r.

Definition createComment (session : SessionDoc) (postId content : string)
    (options : option CommentOptions) : Prog Value :=
  console.log "hey" in
  let! user := Sessioning_getUser session in
  console.log "hey again" in
  let! postObjectId := ObjectId_new postId in
  let! created := Commenting_create postObjectId user content options in
  let! comment := Responses_comment (doc created) in
  Ret (VObject [("msg", VString (msg created)); ("comment", comment)]).

Definition updateComment (session : SessionDoc) (id : string) (content : option string)
    (options : option CommentOptions) : Prog Value :=
  let! user := Sessioning_getUser session in
  let! commentObjectId := ObjectId_new id in
  do! Commenting_assertAuthorIsUser commentObjectId user in
  let! r := Commenting_update commentObjectId content options in
  Ret r.

Definition deleteComment (session : SessionDoc) (id : string) : Prog Value :=
  let! user := Sessioning_getUser session in
  let! commentObjectId := ObjectId_new id in
  do! Commenting_assertAuthorIsUser commentObjectId user in
  let! r := Commenting_delete commentObjectId in
  Ret r.

Definition getEvents (session : SessionDoc) : Prog Value :=
  let! user := Sessioning_getUser session in
  let! events := Scheduling_getEventsByUser user in
  let! r := Responses_events events in
  Ret r.

Definition createEvent (session : SessionDoc) (name startTime endTime : string)
    (type : EventType) : Prog Value :=
  let! user := Sessioning_getUser session in
  let! created :=
    Scheduling_create user name (Date_new startTime) (Date_new endTime) type in
  let! event := Responses_event (doc created) in
  Ret (VObject [("msg", VString (msg created)); ("event", event)]).

Definition updateEvent (session : SessionDoc) (id : string)
    (name startTime endTime : option string) (type : option EventType) : Prog Value :=
  let! user := Sessioning_getUser session in
  let! eventId := ObjectId_new id in
  do! Scheduling_assertUserIsOwner eventId user in
  let! r := Scheduling_update eventId name
              (Date_new <$> truthy startTime) (Date_new <$> truthy endTime) type in
  Ret r.

Definition deleteEvent (session : SessionDoc) (id : string) : Prog Value :=
  let! user := Sessioning_getUser session in
  let! eventId := ObjectId_new id in
  do! Scheduling_assertUserIsOwner eventId user in
  let! r := Scheduling_delete eventId in
  Ret r.

End Routes.

(** ** The route table

    One constructor per decorated method of [Routes], carrying the arguments
    the framework passes to it; [route] is the decorator written above the
    method and [dispatch] the method body. *)
Inductive Method := GET | POST | PATCH | DELETE | PUT.

Inductive Request :=
| GetSessionUser (session : SessionDoc)
| GetUsers
| GetUser (username : string)
| CreateUser (session : SessionDoc) (username password : string)
| UpdateUsername (session : SessionDoc) (username : string)
| UpdatePassword (session : SessionDoc) (currentPassword newPassword : string)
| DeleteUser (session : SessionDoc)
| LogIn (session : SessionDoc) (username password : string)
| LogOut (session : SessionDoc)
| GetPosts (author : option string)
| CreatePost (session : SessionDoc) (content : string) (options : option PostOptions)
| UpdatePost (session : SessionDoc) (id : string) (content : option string)
    (options : option PostOptions)
| DeletePost (session : SessionDoc) (id : string)
| GetFriends (session : SessionDoc)
| RemoveFriend (session : SessionDoc) (friend : string)
| GetRequests (session : SessionDoc)
| SendFriendRequest (session : SessionDoc) (to : string)
| RemoveFriendRequest (session : SessionDoc) (to : string)
| AcceptFriendRequest (session : SessionDoc) (from : string)
| RejectFriendRequest (session : SessionDoc) (from : string)
| GetComments (postId : string)
| CreateComment (session : SessionDoc) (postId content : string)
    (options : option CommentOptions)
| UpdateComment (session : SessionDoc) (id : string) (content : option string)
    (options : option CommentOptions)
| DeleteComment (session : SessionDoc) (id : string)
| GetEvents (session : SessionDoc)
| CreateEvent (session : SessionDoc) (name startTime endTime : string) (type : EventType)
| UpdateEvent (session : SessionDoc) (id : string) (name startTime endTime : option string)
    (type : option EventType)
| DeleteEvent (session : SessionDoc) (id : string).

Definition route (r : Request) : Method * string :=
  match r with
  | GetSessionUser _ => (GET, "/session")
  | GetUsers => (GET, "/users")
  | GetUser _ => (GET, "/users/:username")
  | CreateUser _ _ _ => (POST, "/users")
  | UpdateUsername _ _ => (PATCH, "/users/username")
  | UpdatePassword _ _ _ => (PATCH, "/users/password")
  | DeleteUser _ => (DELETE, "/users")
  | LogIn _ _ _ => (POST, "/login")
  | LogOut _ => (POST, "/logout")
  | GetPosts _ => (GET, "/posts")
  | CreatePost _ _ _ => (POST, "/posts")
  | UpdatePost _ _ _ _ => (PATCH, "/posts/:id")
  | DeletePost _ _ => (DELETE, "/posts/:id")
  | GetFriends _ => (GET, "/friends")
  | RemoveFriend _ _ => (DELETE, "/friends/:friend")
  | GetRequests _ => (GET, "/friend/requests")
  | SendFriendRequest _ _ => (POST, "/friend/requests/:to")
  | RemoveFriendRequest _ _ => (DELETE, "/friend/requests/:to")
  | AcceptFriendRequest _ _ => (PUT, "/friend/accept/:from")
  | RejectFriendRequest _ _ => (PUT, "/friend/reject/:from")
  | GetComments _ => (GET, "/posts/:postId/comments")
  | CreateComment _ _ _ _ => (POST, "/comments/:postId")
  | UpdateComment _ _ _ _ => (PATCH, "/comments/:id")
  | DeleteComment _ _ => (DELETE, "/comments/:id")
  | GetEvents _ => (GET, "/events")
  | CreateEvent _ _ _ _ _ => (POST, "/events")
  | UpdateEvent _ _ _ _ _ _ => (PATCH, "/events/:id")
  | DeleteEvent _ _ => (DELETE, "/events/:id")
  end.

Definition dispatch (r : Request) : Prog Value :=
  match r with
  | GetSessionUser s => Routes.getSessionUser s
  | GetUsers => Routes.getUsers
  | GetUser u => Routes.getUser u
  | CreateUser s u p => Routes.createUser s u p
  | UpdateUsername s u => Routes.updateUsername s u
  | UpdatePassword s c n => Routes.updatePassword s c n
  | DeleteUser s => Routes.deleteUser s
  | LogIn s u p => Routes.logIn s u p
  | LogOut s => Routes.logOut s
  | GetPosts a => Routes.getPosts a
  | CreatePost s c o => Routes.createPost s c o
  | UpdatePost s i c o => Routes.updatePost s i c o
  | DeletePost s i => Routes.deletePost s i
  | GetFriends s => Routes.getFriends s
  | RemoveFriend s f => Routes.removeFriend s f
  | GetRequests s => Routes.getRequests s
  | SendFriendRequest s t => Routes.sendFriendRequest s t
  | RemoveFriendRequest s t => Routes.removeFriendRequest s t
  | AcceptFriendRequest s f => Routes.acceptFriendRequest s f
  | RejectFriendRequest s f => Routes.rejectFriendRequest s f
  | GetComments p => Routes.getComments p
  | CreateComment s p c o => Routes.createComment s p c o
  | UpdateComment s i c o => Routes.updateComment s i c o
  | DeleteComment s i => Routes.deleteComment s i
  | GetEvents s => Routes.getEvents s
  | CreateEvent s n a b t => Routes.createEvent s n a b t
  | UpdateEvent s i n a b t => Routes.updateEvent s i n a b t
  | DeleteEvent s i => Routes.deleteEvent s i
  end.

(** The handlers that act for the user of the session they are given, with
    that session. [createUser] demands a session without a user, [logIn]
    gives the session its user and [logOut] hands the session to
    [Sessioning.end]: they receive a session and act for no user. *)
Definition acting_session (r : Request) : option SessionDoc :=
  match r with
  | GetSessionUser s | UpdateUsername s _ | UpdatePassword s _ _ | DeleteUser s
  | CreatePost s _ _ | UpdatePost s _ _ _ | DeletePost s _
  | GetFriends s | RemoveFriend s _ | GetRequests s
  | SendFriendRequest s _ | RemoveFriendRequest s _
  | AcceptFriendRequest s _ | RejectFriendRequest s _
  | CreateComment s _ _ _ | UpdateComment s _ _ _ | DeleteComment s _
  | GetEvents s | CreateEvent s _ _ _ _ | UpdateEvent s _ _ _ _ _ | DeleteEvent s _ => Some s
  | GetUsers | GetUser _ | GetPosts _ | GetComments _ => None
  | CreateUser _ _ _ | LogIn _ _ _ | LogOut _ => None
  end.

(** ** Running a handler

    An implementation of the calls: a state of the world (sessions and the
    stores of the concepts) and, for each call, the result (thrown error or
    returned value) together with the state it leaves. *)
Definition Result (A : Type) : Type := Err + A.

Record Concepts := {
  World : Type;
  call : forall c : Call, World -> Result (resp c) * World;
}.

(** A call that was made, and the error it threw if it threw. *)
Record Event := { ev_call : Call; ev_threw : option Err }.

Definition returned (c : Call) : Event := {| ev_call := c; ev_threw := None |}.
Definition threw (c : Call) (e : Err) : Event := {| ev_call := c; ev_threw := Some e |}.

Record Run (W R : Type) := {
  events : list Event;      (* the calls made, in order *)
  console : list string;    (* the lines logged, in order *)
  final : W;                (* the world the handler leaves *)
  outcome : Result R;       (* what the handler throws or returns *)
}.

Arguments events {W R} r.
Arguments console {W R} r.
Arguments final {W R} r.
Arguments outcome {W R} r.

Section Semantics.
Context (C : Concepts).

Fixpoint exec {R : Type} (p : Prog R) (w : World C) : Run (World C) R :=
  match p with
  | Ret r => {| events := []; console := []; final := w; outcome := inr r |}
  | Do c k =>
      match call C c w with
      | (inl e, w') =>
          {| events := [threw c e]; console := []; final := w'; outcome := inl e |}
      | (inr v, w') =>
          let r := exec (k v) w' in
          {| events := returned c :: events r; console := console r;
             final := final r; outcome := outcome r |}
      end
  | Log line k =>
      let r := exec k w in
      {| events := events r; console := line :: console r;
         final := final r; outcome := outcome r |}
  | TryCatch body handler =>
      let r := exec body w in
      match outcome r with
      | inl e =>
          let r' := exec (handler e) (final r) in
          {| events := events r ++ events r'; console := console r ++ console r';
             final := final r'; outcome := outcome r' |}
      | inr _ => r
      end
  end.

End Semantics.

Arguments exec C {R} p w.

(** The calls of a run, without their results. *)
Definition calls {W R : Type} (r : Run W R) : list Call :=
  map ev_call (events r).

(** A program without [try]/[catch]. *)
Inductive catch_free {R : Type} : Prog R -> Prop :=
| cf_Ret r : catch_free (Ret r)
| cf_Do c k : (forall v, catch_free (k v)) -> catch_free (Do c k)
| cf_Log line k : catch_free k -> catch_free (Log line k).

(** ** A reference implementation of the calls

    The concept modules, [Responses] and the router are files of the
    repository that the route layer imports and that are not part of it.
    [Model] gives them the behaviour the specification attributes to them,
    in the least committal way, so that handlers can be run on concrete
    worlds. *)
Module Model.

Inductive RequestStatus := pending | accepted | rejected.

Record User := { user_name : string; user_password : string }.

Record Post := {
  post_author : ObjectId; post_content : string; post_options : option Value }.

Record Comment := {
  comment_post : ObjectId; comment_author : ObjectId;
  comment_content : string; comment_options : option Value }.

Record Scheduled := {
  event_owner : ObjectId; event_name : string;
  event_start : Date; event_end : Date; event_type : EventType }.

(** Modelled from the spec: the stores behind the missing concept modules,
    after section 3. A session "ties an HTTP session to a logged-in user
    id"; a user is an "identity with username/password credential"; a
    post has an "author id, content, options", a comment a "parent post
    id, author id, content, options", an event an "owner id, name,
    start/end time, type"; a friend request is a "(from, to) pair with
    pending/accepted/rejected state" and friendship is symmetric. *)
Record State := {
  sessions : gmap SessionDoc ObjectId;
  users : gmap ObjectId User;
  posts : gmap ObjectId Post;
  comments : gmap ObjectId Comment;
  scheduled : gmap ObjectId Scheduled;
  requests : gmap (ObjectId * ObjectId) RequestStatus;
  friendships : gset (ObjectId * ObjectId);
  next_id : ObjectId;
}.

Definition with_sessions (f : gmap SessionDoc ObjectId -> gmap SessionDoc ObjectId)
    (st : State) : State :=
  {| sessions := f (sessions st); users := users st; posts := posts st;
     comments := comments st; scheduled := scheduled st; requests := requests st;
     friendships := friendships st; next_id := next_id st |}.

Definition with_users (f : gmap ObjectId User -> gmap ObjectId User) (st : State) : State :=
  {| sessions := sessions st; users := f (users st); posts := posts st;
     comments := comments st; scheduled := scheduled st; requests := requests st;
     friendships := friendships st; next_id := next_id st |}.

Definition with_posts (f : gmap ObjectId Post -> gmap ObjectId Post) (st : State) : State :=
  {| sessions := sessions st; users := users st; posts := f (posts st);
     comments := comments st; scheduled := scheduled st; requests := requests st;
     friendships := friendships st; next_id := next_id st |}.

Definition with_comments (f : gmap ObjectId Comment -> gmap ObjectId Comment)
    (st : State) : State :=
  {| sessions := sessions st; users := users st; posts := posts st;
     comments := f (comments st); scheduled := scheduled st; requests := requests st;
     friendships := friendships st; next_id := next_id st |}.

Definition with_scheduled (f : gmap ObjectId Scheduled -> gmap ObjectId Scheduled)
    (st : State) : State :=
  {| sessions := sessions st; users := users st; posts := posts st;
     comments := comments st; scheduled := f (scheduled st); requests := requests st;
     friendships := friendships st; next_id := next_id st |}.

Definition with_requests
    (f : gmap (ObjectId * ObjectId) RequestStatus -> gmap (ObjectId * ObjectId) RequestStatus)
    (st : State) : State :=
  {| sessions := sessions st; users := users st; posts := posts st;
     comments := comments st; scheduled := scheduled st; requests := f (requests st);
     friendships := friendships st; next_id := next_id st |}.

Definition with_friendships
    (f : gset (ObjectId * ObjectId) -> gset (ObjectId * ObjectId)) (st : State) : State :=
  {| sessions := sessions st; users := users st; posts := posts st;
     comments := comments st; scheduled := scheduled st; requests := requests st;
     friendships := f (friendships st); next_id := next_id st |}.

(** A new document takes the next id. *)
Definition fresh (st : State) : ObjectId * State :=
  (next_id st,
   {| sessions := sessions st; users := users st; posts := posts st;
      comments := comments st; scheduled := scheduled st; requests := requests st;
      friendships := friendships st; next_id := N.succ (next_id st) |}).

Definition ok {A : Type} (v : A) (st : State) : Result A * State := (inr v, st).
Definition throw {A : Type} (e : Err) (st : State) : Result A * State := (inl e, st).
Definition message (m : string) : Value := VObject [("msg", VString m)].

(** *** JSON views of the documents *)

Definition user_doc (id : ObjectId) (u : User) : UserDoc :=
  {| _id := id; username := user_name u |}.

Definition option_json (o : option Value) : Value :=
  match o with Some v => v | None => VUndefined end.

Definition post_json (id : ObjectId) (p : Post) : Value :=
  VObject [("_id", VObjectId id); ("author", VObjectId (post_author p));
           ("content", VString (post_content p)); ("options", option_json (post_options p))].

Definition comment_json (id : ObjectId) (c : Comment) : Value :=
  VObject [("_id", VObjectId id); ("post", VObjectId (comment_post c));
           ("author", VObjectId (comment_author c));
           ("content", VString (comment_content c));
           ("options", option_json (comment_options c))].

Definition type_json (t : EventType) : Value :=
  VString match t with focus => "focus" | social => "social" end.

Definition date_json (d : Date) : Value := let 'Date_new s := d in VString s.

Definition event_json (id : ObjectId) (e : Scheduled) : Value :=
  VObject [("_id", VObjectId id); ("owner", VObjectId (event_owner e));
           ("name", VString (event_name e)); ("startTime", date_json (event_start e));
           ("endTime", date_json (event_end e)); ("type", type_json (event_type e))].

Definition status_json (s : RequestStatus) : Value :=
  VString match s with
          | pending => "pending" | accepted => "accepted" | rejected => "rejected"
          end.

Definition request_json (r : ObjectId * ObjectId * RequestStatus) : Value :=
  VObject [("from", VObjectId r.1.1); ("to", VObjectId r.1.2); ("status", status_json r.2)].

(** *** Sessioning *)

(** Modelled from the spec: [Sessioning] is missing. A session is logged
    in when it is tied to a user id; [getUser] gives that id and throws
    for a session that has none, [isLoggedOut] throws for a session that
    has one; [start] ties the session to a user and [end] unties it. *)
Definition sessioning_getUser (s : SessionDoc) (st : State) : Result ObjectId * State :=
  match sessions st !! s with
  | Some u => ok u st
  | None => throw (UnauthenticatedError "Must be logged in!") st
  end.

Definition sessioning_isLoggedOut (s : SessionDoc) (st : State) : Result unit * State :=
  match sessions st !! s with
  | Some _ => throw (NotAllowedError "Must be logged out!") st
  | None => ok tt st
  end.

(** Modelled from the spec: [Sessioning.start] is missing; the start of the
    session lifecycle ties the session to the user. *)
Definition sessioning_start (s : SessionDoc) (u : ObjectId) (st : State)
  : Result unit * State :=
  ok tt (with_sessions (insert s u) st).

(** Modelled from the spec: [Sessioning.end] is missing; the end of the
    session "lifecycle start()/end()" leaves the session without user. *)
Definition sessioning_end (s : SessionDoc) (st : State) : Result unit * State :=
  ok tt (with_sessions (delete s) st).

(** *** Authing *)

Definition find_user (name : string) (st : State) : option (ObjectId * User) :=
  List.find (fun p => String.eqb (user_name (snd p)) name) (map_to_list (users st)).

(** Modelled from the spec: [Authing] is missing. Accounts have a
    "unique username" and a password; looking up an account that does not
    exist is a not-found error, wrong credentials and a taken name are
    not-authorized errors, empty credentials a validation failure. *)
Definition authing_getUserById (u : ObjectId) (st : State) : Result UserDoc * State :=
  match users st !! u with
  | Some r => ok (user_doc u r) st
  | None => throw (NotFoundError "User not found!") st
  end.

Definition authing_getUsers (st : State) : Result Value * State :=
  ok (VArray (map (fun p => user_json (user_doc (fst p) (snd p))) (map_to_list (users st)))) st.

(** Modelled from the spec: [Authing.getUserByUsername] is missing; it
    gives the account with that "unique username", or a not-found error. *)
Definition authing_getUserByUsername (name : string) (st : State)
  : Result UserDoc * State :=
  match find_user name st with
  | Some (id, r) => ok (user_doc id r) st
  | None => throw (NotFoundError "User not found!") st
  end.

Definition authing_create (name password : string) (st : State) : Result Value * State :=
  if (String.eqb name "" || String.eqb password "")%bool
  then throw (BadValuesError "Username and password must be non-empty!") st
  else match find_user name st with
       | Some _ => throw (NotAllowedError "User already exists!") st
       | None =>
           let '(id, st1) := fresh st in
           let r := {| user_name := name; user_password := password |} in
           ok (VObject [("msg", VString "User created successfully!");
                        ("user", user_json (user_doc id r))])
              (with_users (insert id r) st1)
       end.

Definition authing_updateUsername (u : ObjectId) (name : string) (st : State)
  : Result Value * State :=
  match find_user name st with
  | Some _ => throw (NotAllowedError "User already exists!") st
  | None =>
      ok (message "Username updated successfully!")
         (with_users
            (alter (fun r => {| user_name := name; user_password := user_password r |}) u) st)
  end.

Definition authing_updatePassword (u : ObjectId) (current new : string) (st : State)
  : Result Value * State :=
  match users st !! u with
  | None => throw (NotFoundError "User not found!") st
  | Some r =>
      if String.eqb (user_password r) current
      then ok (message "Password updated successfully!")
             (with_users (insert u {| user_name := user_name r; user_password := new |}) st)
      else throw (NotAllowedError "The given current password is wrong!") st
  end.

(** Modelled from the spec: [Authing.delete] is missing; it removes the
    account, and an account that does not exist is a not-found error. *)
Definition authing_delete (u : ObjectId) (st : State) : Result Value * State :=
  match users st !! u with
  | None => throw (NotFoundError "User not found!") st
  | Some _ => ok (message "User deleted!") (with_users (delete u) st)
  end.

Definition authing_authenticate (name password : string) (st : State)
  : Result UserDoc * State :=
  match find_user name st with
  | Some (id, r) =>
      if String.eqb (user_password r) password
      then ok (user_doc id r) st
      else throw (NotAllowedError "Username or password is incorrect.") st
  | None => throw (NotAllowedError "Username or password is incorrect.") st
  end.

Definition authing_idsToUsernames (ids : list ObjectId) (st : State)
  : Result Value * State :=
  ok (VArray (map (fun id => match users st !! id with
                             | Some r => VString (user_name r)
                             | None => VString "DELETED_USER"
                             end) ids)) st.

(** *** Posting, Commenting, Scheduling *)

Definition or_else {A : Type} (new : option A) (old : A) : A :=
  match new with Some v => v | None => old end.

(** Modelled from the spec: [Posting] is missing. A post is "owned by its
    author": the assertion throws not-found for an id without a post and
    not-authorized for a user who is not the author. *)
Definition posting_assertAuthorIsUser (oid user : ObjectId) (st : State)
  : Result unit * State :=
  match posts st !! oid with
  | None => throw (NotFoundError "Post does not exist!") st
  | Some p =>
      if N.eqb (post_author p) user then ok tt st
      else throw (NotAllowedError "User is not the author of the post!") st
  end.

Definition posting_getPosts (st : State) : Result Value * State :=
  ok (VArray (map (fun p => post_json (fst p) (snd p)) (map_to_list (posts st)))) st.

Definition posting_getByAuthor (author : ObjectId) (st : State) : Result Value * State :=
  ok (VArray (map (fun p => post_json (fst p) (snd p))
                (List.filter (fun p => N.eqb (post_author (snd p)) author)
                   (map_to_list (posts st))))) st.

Definition posting_create (user : ObjectId) (content : string) (options : option Value)
    (st : State) : Result Created * State :=
  let '(id, st1) := fresh st in
  let p := {| post_author := user; post_content := content; post_options := options |} in
  ok {| msg := "Post successfully created!"; doc := post_json id p |}
     (with_posts (insert id p) st1).

Definition posting_update (oid : ObjectId) (content : option string)
    (options : option Value) (st : State) : Result Value * State :=
  ok (message "Post successfully updated!")
     (with_posts
        (alter (fun p => {| post_author := post_author p;
                            post_content := or_else content (post_content p);
                            post_options := match options with
                                            | Some o => Some o
                                            | None => post_options p
                                            end |}) oid) st).

Definition posting_delete (oid : ObjectId) (st : State) : Result Value * State :=
  ok (message "Post deleted successfully!") (with_posts (delete oid) st).

(** Modelled from the spec: [Commenting] is missing. A comment is "owned
    by its author", with the same assertion as a post. *)
Definition commenting_assertAuthorIsUser (cid user : ObjectId) (st : State)
  : Result unit * State :=
  match comments st !! cid with
  | None => throw (NotFoundError "Comment does not exist!") st
  | Some c =>
      if N.eqb (comment_author c) user then ok tt st
      else throw (NotAllowedError "User is not the author of the comment!") st
  end.

Definition commenting_getCommentsForPost (post : ObjectId) (st : State)
  : Result Value * State :=
  ok (VArray (map (fun c => comment_json (fst c) (snd c))
                (List.filter (fun c => N.eqb (comment_post (snd c)) post)
                   (map_to_list (comments st))))) st.

Definition commenting_create (post user : ObjectId) (content : string)
    (options : option Value) (st : State) : Result Created * State :=
  let '(id, st1) := fresh st in
  let c := {| comment_post := post; comment_author := user;
              comment_content := content; comment_options := options |} in
  ok {| msg := "Comment successfully created!"; doc := comment_json id c |}
     (with_comments (insert id c) st1).

Definition commenting_update (cid : ObjectId) (content : option string)
    (options : option Value) (st : State) : Result Value * State :=
  ok (message "Comment successfully updated!")
     (with_comments
        (alter (fun c => {| comment_post := comment_post c;
                            comment_author := comment_author c;
                            comment_content := or_else content (comment_content c);
                            comment_options := match options with
                                               | Some o => Some o
                                               | None => comment_options c
                                               end |}) cid) st).

Definition commenting_delete (cid : ObjectId) (st : State) : Result Value * State :=
  ok (message "Comment deleted successfully!") (with_comments (delete cid) st).

(** Modelled from the spec: [Scheduling] is missing. An event is "owned by
    its creator", with the same assertion on the owner. *)
Definition scheduling_assertUserIsOwner (eid user : ObjectId) (st : State)
  : Result unit * State :=
  match scheduled st !! eid with
  | None => throw (NotFoundError "Event does not exist!") st
  | Some e =>
      if N.eqb (event_owner e) user then ok tt st
      else throw (NotAllowedError "User is not the owner of the event!") st
  end.

Definition scheduling_getEventsByUser (user : ObjectId) (st : State)
  : Result Value * State :=
  ok (VArray (map (fun e => event_json (fst e) (snd e))
                (List.filter (fun e => N.eqb (event_owner (snd e)) user)
                   (map_to_list (scheduled st))))) st.

Definition scheduling_create (user : ObjectId) (name : string) (startTime endTime : Date)
    (type : EventType) (st : State) : Result Created * State :=
  let '(id, st1) := fresh st in
  let e := {| event_owner := user; event_name := name; event_start := startTime;
              event_end := endTime; event_type := type |} in
  ok {| msg := "Event successfully created!"; doc := event_json id e |}
     (with_scheduled (insert id e) st1).

Definition scheduling_update (eid : ObjectId) (name : option string)
    (startTime endTime : option Date) (type : option EventType) (st : State)
  : Result Value * State :=
  ok (message "Event successfully updated!")
     (with_scheduled
        (alter (fun e => {| event_owner := event_owner e;
                            event_name := or_else name (event_name e);
                            event_start := or_else startTime (event_start e);
                            event_end := or_else endTime (event_end e);
                            event_type := or_else type (event_type e) |}) eid) st).

Definition scheduling_delete (eid : ObjectId) (st : State) : Result Value * State :=
  ok (message "Event deleted successfully!") (with_scheduled (delete eid) st).

(** *** Friending *)

Definition friends (st : State) (a b : ObjectId) : bool :=
  bool_decide ((a, b) ∈ friendships st).

Definition is_pending (st : State) (from to : ObjectId) : bool :=
  match requests st !! (from, to) with
  | Some pending => true
  | _ => false
  end.

(** Modelled from the spec: [Friending] is missing. A friend request is a
    "(from, to) pair with pending/accepted/rejected state; symmetric
    friendship materializes on acceptance": sending makes the pair
    pending, accepting or rejecting needs a pending pair and makes it
    accepted or rejected, and accepting records the friendship both
    ways. *)
Definition friending_sendRequest (from to : ObjectId) (st : State)
  : Result Value * State :=
  ok (message "Sent request!") (with_requests (insert (from, to) pending) st).

(** Modelled from the spec: [Friending.acceptRequest] is missing; the
    pending pair becomes accepted and the "symmetric friendship
    materializes on acceptance". *)
Definition friending_acceptRequest (from to : ObjectId) (st : State)
  : Result Value * State :=
  if is_pending st from to
  then ok (message "Accepted request!")
         (with_friendships (fun f => {[ (from, to); (to, from) ]} ∪ f)
            (with_requests (insert (from, to) accepted) st))
  else throw (NotFoundError "Friend request does not exist!") st.

(** Modelled from the spec: [Friending.rejectRequest] is missing; the
    pending pair becomes rejected, friendships are not touched. *)
Definition friending_rejectRequest (from to : ObjectId) (st : State)
  : Result Value * State :=
  if is_pending st from to
  then ok (message "Rejected request!") (with_requests (insert (from, to) rejected) st)
  else throw (NotFoundError "Friend request does not exist!") st.

Definition friending_removeRequest (from to : ObjectId) (st : State)
  : Result Value * State :=
  if is_pending st from to
  then ok (message "Removed request!") (with_requests (delete (from, to)) st)
  else throw (NotFoundError "Friend request does not exist!") st.

Definition friending_getFriends (user : ObjectId) (st : State)
  : Result (list ObjectId) * State :=
  ok (map snd (List.filter (fun p => N.eqb (fst p) user) (elements (friendships st)))) st.

Definition friending_removeFriend (user friend : ObjectId) (st : State)
  : Result Value * State :=
  if friends st user friend
  then ok (message "Unfriended!")
         (with_friendships (fun f => f ∖ {[ (user, friend); (friend, user) ]}) st)
  else throw (NotFoundError "Friendship does not exist!") st.

Definition friending_getRequests (user : ObjectId) (st : State) : Result Value * State :=
  ok (VArray (map request_json
                (List.filter (fun r => (N.eqb (fst (fst r)) user || N.eqb (snd (fst r)) user)%bool)
                   (map_to_list (requests st))))) st.

(** *** ObjectId *)

Definition hex_digit (a : ascii) : option N :=
  let n := N_of_ascii a in
  if ((48 <=? n) && (n <=? 57))%N then Some (n - 48)%N
  else if ((97 <=? n) && (n <=? 102))%N then Some (n - 87)%N
  else if ((65 <=? n) && (n <=? 70))%N then Some (n - 55)%N
  else None.

Fixpoint hex_value (acc : N) (s : string) : option N :=
  match s with
  | EmptyString => Some acc
  | String a rest =>
      match hex_digit a with
      | Some d => hex_value (16 * acc + d)%N rest
      | None => None
      end
  end.

(** The twelve bytes of a string as a number, first byte first. *)
Fixpoint bytes_value (acc : N) (s : string) : N :=
  match s with
  | EmptyString => acc
  | String a rest => bytes_value (256 * acc + N_of_ascii a)%N rest
  end.

Definition invalid_id : Err :=
  BSONError
    "Argument passed in must be a string of 12 bytes or a string of 24 hex characters or an integer".

(** [new ObjectId(id)] of the database driver, on a string: a string of 12
    bytes is the id made of those bytes, a string of 24 hexadecimal digits
    is the id they write, and anything else throws. *)
Definition objectId_new (id : string) (st : State) : Result ObjectId * State :=
  if Nat.eqb (String.length id) 12 then ok (bytes_value 0 id) st
  else if Nat.eqb (String.length id) 24
  then match hex_value 0 id with
       | Some n => ok n st
       | None => throw invalid_id st
       end
  else throw invalid_id st.

(** *** The implementation *)

(** The implementation of every call. [Responses], the "response
    formatter", is missing too; it is taken to hand the documents on as
    they are. *)
Definition perform (c : Call) : State -> Result (resp c) * State :=
  match c return State -> Result (resp c) * State with
  | Sessioning_getUser s => sessioning_getUser s
  | Sessioning_isLoggedOut s => sessioning_isLoggedOut s
  | Sessioning_start s u => sessioning_start s u
  | Sessioning_end s => sessioning_end s
  | Authing_getUserById u => authing_getUserById u
  | Authing_getUsers => authing_getUsers
  | Authing_getUserByUsername n => authing_getUserByUsername n
  | Authing_create n p => authing_create n p
  | Authing_updateUsername u n => authing_updateUsername u n
  | Authing_updatePassword u c n => authing_updatePassword u c n
  | Authing_delete u => authing_delete u
  | Authing_authenticate n p => authing_authenticate n p
  | Authing_idsToUsernames ids => authing_idsToUsernames ids
  | Posting_getByAuthor a => posting_getByAuthor a
  | Posting_getPosts => posting_getPosts
  | Posting_create u c o => posting_create u c o
  | Posting_assertAuthorIsUser o u => posting_assertAuthorIsUser o u
  | Posting_update o c op => posting_update o c op
  | Posting_delete o => posting_delete o
  | Friending_getFriends u => friending_getFriends u
  | Friending_removeFriend u f => friending_removeFriend u f
  | Friending_getRequests u => friending_getRequests u
  | Friending_sendRequest f t => friending_sendRequest f t
  | Friending_removeRequest f t => friending_removeRequest f t
  | Friending_acceptRequest f t => friending_acceptRequest f t
  | Friending_rejectRequest f t => friending_rejectRequest f t
  | Commenting_getCommentsForPost p => commenting_getCommentsForPost p
  | Commenting_create p u c o => commenting_create p u c o
  | Commenting_assertAuthorIsUser c u => commenting_assertAuthorIsUser c u
  | Commenting_update c t o => commenting_update c t o
  | Commenting_delete c => commenting_delete c
  | Scheduling_getEventsByUser u => scheduling_getEventsByUser u
  | Scheduling_create u n a b t => scheduling_create u n a b t
  | Scheduling_assertUserIsOwner e u => scheduling_assertUserIsOwner e u
  | Scheduling_update e n a b t => scheduling_update e n a b t
  | Scheduling_delete e => scheduling_delete e
  | Responses_posts v | Responses_post v | Responses_friendRequests v
  | Responses_comments v | Responses_comment v | Responses_events v
  | Responses_event v => ok v
  | ObjectId_new id => objectId_new id
  end.

Definition concepts : Concepts := {| World := State; call := perform |}.

Definition run {R : Type} (p : Prog R) (st : State) : Run State R := exec concepts p st.

(** *** A small world

    Two accounts, alice (id 1) and bob (id 2); session 10 is alice's,
    session 20 is bob's, session 30 has no user and session 40 is still
    tied to an account (id 9) that no longer exists. Alice wrote post
    [0xa1] and comment [0xc1], and owns event [0xe1]. *)
Definition alice : ObjectId := 1%N.
Definition bob : ObjectId := 2%N.

Definition world0 : State :=
  {| sessions := {[ 10%N := alice; 20%N := bob; 40%N := 9%N ]};
     users := {[ alice := {| user_name := "alice"; user_password := "pw-a" |};
                 bob := {| user_name := "bob"; user_password := "pw-b" |} ]};
     posts := {[ 161%N := {| post_author := alice; post_content := "hello";
                             post_options := None |} ]};
     comments := {[ 193%N := {| comment_post := 161%N; comment_author := alice;
                                comment_content := "first"; comment_options := None |} ]};
     scheduled := {[ 225%N := {| event_owner := alice; event_name := "study";
                                 event_start := Date_new "2024-10-01T09:00:00Z";
                                 event_end := Date_new "2024-10-01T10:00:00Z";
                                 event_type := focus |} ]};
     requests := ∅;
     friendships := ∅;
     next_id := 256%N |}.

Definition id_a1 : string := "0000000000000000000000a1".
Definition id_c1 : string := "0000000000000000000000c1".
Definition id_e1 : string := "0000000000000000000000e1".

End Model.

(** ** Vocabulary of the properties *)

(** The six routes that change or delete a post, a comment or an event,
    with the session and the [:id] path parameter they receive. *)
Definition owner_checked (r : Request) : option (SessionDoc * string) :=
  match r with
  | UpdatePost s id _ _ | DeletePost s id
  | UpdateComment s id _ _ | DeleteComment s id
  | UpdateEvent s id _ _ _ _ | DeleteEvent s id => Some (s, id)
  | _ => None
  end.

(** The ownership assertion of the concept that holds the document. *)
Definition owner_assertion (r : Request) (oid user : ObjectId) : Call :=
  match r with
  | UpdateComment _ _ _ _ | DeleteComment _ _ => Commenting_assertAuthorIsUser oid user
  | UpdateEvent _ _ _ _ _ _ | DeleteEvent _ _ => Scheduling_assertUserIsOwner oid user
  | _ => Posting_assertAuthorIsUser oid user
  end.

(** The document a call changes or deletes, if it does. *)
Definition mutated (c : Call) : option ObjectId :=
  match c with
  | Posting_update oid _ _ | Posting_delete oid
  | Commenting_update oid _ _ | Commenting_delete oid
  | Scheduling_update oid _ _ _ _ | Scheduling_delete oid => Some oid
  | _ => None
  end.

(** The five routes on friends and friend requests that take a username as
    path parameter, with the session and that username. *)
Definition friend_route (r : Request) : option (SessionDoc * string) :=
  match r with
  | RemoveFriend s name | SendFriendRequest s name | RemoveFriendRequest s name
  | AcceptFriendRequest s name | RejectFriendRequest s name => Some (s, name)
  | _ => None
  end.

(** The [Friending] call such a route delegates to, for the session user
    [user] and the id [other] of the named user. *)
Definition friending_call (r : Request) (user other : ObjectId) : Call :=
  match r with
  | SendFriendRequest _ _ => Friending_sendRequest user other
  | RemoveFriendRequest _ _ => Friending_removeRequest user other
  | AcceptFriendRequest _ _ => Friending_acceptRequest other user
  | RejectFriendRequest _ _ => Friending_rejectRequest other user
  | _ => Friending_removeFriend user other
  end.

(** A run in which a call that throws is the last call made and its error
    is the error of the handler, and in which the handler throws nothing
    that a call did not throw. *)
Definition propagates {W R : Type} (r : Run W R) : Prop :=
  (forall pre ev post e,
      events r = pre ++ ev :: post -> ev_threw ev = Some e ->
      post = [] /\ outcome r = inl e)
  /\ (forall e, outcome r = inl e -> exists pre c, events r = pre ++ [threw c e]).

(** The events of a run are the calls as the implementation answered them,
    each made in the world the previous one left: [genuine C w evs w']
    replays [evs] from [w] and ends in [w']. *)
Inductive genuine (C : Concepts) : World C -> list Event -> World C -> Prop :=
| genuine_nil w : genuine C w [] w
| genuine_returned w c v w1 evs w' :
    call C c w = (inr v, w1) -> genuine C w1 evs w' ->
    genuine C w (returned c :: evs) w'
| genuine_threw w c e w1 evs w' :
    call C c w = (inl e, w1) -> genuine C w1 evs w' ->
    genuine C w (threw c e :: evs) w'.

(** The (method, path) pairs of the routes that change or delete a post, a
    comment or an event, and of the routes on friends and friend requests
    that take a username. *)
Definition owner_checked_paths : list (Method * string) :=
  [(PATCH, "/posts/:id"); (DELETE, "/posts/:id");
   (PATCH, "/comments/:id"); (DELETE, "/comments/:id");
   (PATCH, "/events/:id"); (DELETE, "/events/:id")].

Definition friend_paths : list (Method * string) :=
  [(DELETE, "/friends/:friend"); (POST, "/friend/requests/:to");
   (DELETE, "/friend/requests/:to"); (PUT, "/friend/accept/:from");
   (PUT, "/friend/reject/:from")].

(** On the reference implementation, the owner of the document a route
    changes or deletes. *)
Definition owner_of (st : Model.State) (r : Request) (oid : ObjectId) : option ObjectId :=
  match r with
  | UpdatePost _ _ _ _ | DeletePost _ _ => Model.post_author <$> Model.posts st !! oid
  | UpdateComment _ _ _ _ | DeleteComment _ _ =>
      Model.comment_author <$> Model.comments st !! oid
  | UpdateEvent _ _ _ _ _ _ | DeleteEvent _ _ =>
      Model.event_owner <$> Model.scheduled st !! oid
  | _ => None
  end.

(** A handler that would swallow the error of [Sessioning.getUser]; no
    handler of [Routes] is written this way. *)
Definition swallowing (session : SessionDoc) : Prog Value :=
  TryCatch (let! user := Sessioning_getUser session in Ret (VObjectId user))
           (fun _ => Ret VUndefined).

(** ** Vocabulary of the further properties *)

(** The session a handler receives, for the 24 handlers that receive one. *)
Definition session_of (r : Request) : option SessionDoc :=
  match r with
  | GetUsers | GetUser _ | GetPosts _ | GetComments _ => None
  | GetSessionUser s | CreateUser s _ _ | UpdateUsername s _ | UpdatePassword s _ _
  | DeleteUser s | LogIn s _ _ | LogOut s
  | CreatePost s _ _ | UpdatePost s _ _ _ | DeletePost s _
  | GetFriends s | RemoveFriend s _ | GetRequests s
  | SendFriendRequest s _ | RemoveFriendRequest s _
  | AcceptFriendRequest s _ | RejectFriendRequest s _
  | CreateComment s _ _ _ | UpdateComment s _ _ _ | DeleteComment s _
  | GetEvents s | CreateEvent s _ _ _ _ | UpdateEvent s _ _ _ _ _ | DeleteEvent s _ => Some s
  end.

(** The session a call to [Sessioning] is about. *)
Definition session_arg (c : Call) : option SessionDoc :=
  match c with
  | Sessioning_getUser s | Sessioning_isLoggedOut s | Sessioning_start s _
  | Sessioning_end s => Some s
  | _ => None
  end.

(** The argument by which a call names the user it is made for: the
    parameter the handlers fill with [user]. *)
Definition actor (c : Call) : option ObjectId :=
  match c with
  | Authing_getUserById u | Authing_updateUsername u _ | Authing_updatePassword u _ _
  | Authing_delete u => Some u
  | Posting_create u _ _ | Posting_assertAuthorIsUser _ u => Some u
  | Friending_getFriends u | Friending_removeFriend u _ | Friending_getRequests u
  | Friending_sendRequest u _ | Friending_removeRequest u _
  | Friending_acceptRequest _ u | Friending_rejectRequest _ u => Some u
  | Commenting_create _ u _ _ | Commenting_assertAuthorIsUser _ u => Some u
  | Scheduling_getEventsByUser u | Scheduling_create u _ _ _ _
  | Scheduling_assertUserIsOwner _ u => Some u
  | _ => None
  end.

(** The methods that change what is stored, by their names: the session
    lifecycle and every create, update, delete, send, remove, accept and
    reject. The others look up, list, assert or format. *)
Definition writes (c : Call) : bool :=
  match c with
  | Sessioning_start _ _ | Sessioning_end _
  | Authing_create _ _ | Authing_updateUsername _ _ | Authing_updatePassword _ _ _
  | Authing_delete _
  | Posting_create _ _ _ | Posting_update _ _ _ | Posting_delete _
  | Friending_removeFriend _ _ | Friending_sendRequest _ _ | Friending_removeRequest _ _
  | Friending_acceptRequest _ _ | Friending_rejectRequest _ _
  | Commenting_create _ _ _ _ | Commenting_update _ _ _ | Commenting_delete _
  | Scheduling_create _ _ _ _ _ | Scheduling_update _ _ _ _ _ | Scheduling_delete _ => true
  | _ => false
  end.

(** The result of a call as the JSON a handler would return. *)
Definition to_value (c : Call) : resp c -> Value :=
  match c return resp c -> Value with
  | Sessioning_getUser _ => VObjectId
  | Sessioning_isLoggedOut _ => fun _ => VUndefined
  | Sessioning_start _ _ => fun _ => VUndefined
  | Sessioning_end _ => fun _ => VUndefined
  | Authing_getUserById _ => user_json
  | Authing_getUserByUsername _ => user_json
  | Authing_authenticate _ _ => user_json
  | Posting_create _ _ _ => fun cr => VObject [("msg", VString (msg cr)); ("post", doc cr)]
  | Commenting_create _ _ _ _ =>
      fun cr => VObject [("msg", VString (msg cr)); ("comment", doc cr)]
  | Scheduling_create _ _ _ _ _ =>
      fun cr => VObject [("msg", VString (msg cr)); ("event", doc cr)]
  | Posting_assertAuthorIsUser _ _ => fun _ => VUndefined
  | Commenting_assertAuthorIsUser _ _ => fun _ => VUndefined
  | Scheduling_assertUserIsOwner _ _ => fun _ => VUndefined
  | Friending_getFriends _ => fun ids => VArray (map VObjectId ids)
  | ObjectId_new _ => VObjectId
  | Authing_getUsers => fun v => v
  | Authing_create _ _ => fun v => v
  | Authing_updateUsername _ _ => fun v => v
  | Authing_updatePassword _ _ _ => fun v => v
  | Authing_delete _ => fun v => v
  | Authing_idsToUsernames _ => fun v => v
  | Posting_getByAuthor _ => fun v => v
  | Posting_getPosts => fun v => v
  | Posting_update _ _ _ => fun v => v
  | Posting_delete _ => fun v => v
  | Friending_removeFriend _ _ => fun v => v
  | Friending_getRequests _ => fun v => v
  | Friending_sendRequest _ _ => fun v => v
  | Friending_removeRequest _ _ => fun v => v
  | Friending_acceptRequest _ _ => fun v => v
  | Friending_rejectRequest _ _ => fun v => v
  | Commenting_getCommentsForPost _ => fun v => v
  | Commenting_update _ _ _ => fun v => v
  | Commenting_delete _ => fun v => v
  | Scheduling_getEventsByUser _ => fun v => v
  | Scheduling_update _ _ _ _ _ => fun v => v
  | Scheduling_delete _ => fun v => v
  | Responses_posts _ => fun v => v
  | Responses_post _ => fun v => v
  | Responses_friendRequests _ => fun v => v
  | Responses_comments _ => fun v => v
  | Responses_comment _ => fun v => v
  | Responses_events _ => fun v => v
  | Responses_event _ => fun v => v
  end.

(** The handlers that end with [return await f(...)] or [return f(...)]:
    all but [logIn] and [logOut], which return a fixed message, and the
    three [create] handlers of documents, which build their reply. *)
Definition passes_through (r : Request) : bool :=
  match r with
  | LogIn _ _ _ | LogOut _ | CreatePost _ _ _ | CreateComment _ _ _ _
  | CreateEvent _ _ _ _ _ => false
  | _ => true
  end.

(** The call by which an owner-checked route changes or deletes the
    document [oid], with the fields of the request. *)
Definition mutation_call (r : Request) (oid : ObjectId) : Call :=
  match r with
  | UpdatePost _ _ content options => Posting_update oid content options
  | UpdateComment _ _ content options => Commenting_update oid content options
  | DeleteComment _ _ => Commenting_delete oid
  | UpdateEvent _ _ name startTime endTime type =>
      Scheduling_update oid name (Date_new <$> truthy startTime)
        (Date_new <$> truthy endTime) type
  | DeleteEvent _ _ => Scheduling_delete oid
  | _ => Posting_delete oid
  end.

(** The path parameter a handler turns into an [ObjectId]. *)
Definition id_param (r : Request) : option string :=
  match r with
  | UpdatePost _ id _ _ | DeletePost _ id | UpdateComment _ id _ _ | DeleteComment _ id
  | UpdateEvent _ id _ _ _ _ | DeleteEvent _ id => Some id
  | GetComments postId | CreateComment _ postId _ _ => Some postId
  | _ => None
  end.

(** The four handlers on comments. *)
Definition comment_route (r : Request) : bool :=
  match r with
  | GetComments _ | CreateComment _ _ _ _ | UpdateComment _ _ _ _ | DeleteComment _ _ => true
  | _ => false
  end.

(** The modules a handler calls. *)
Definition footprint (r : Request) : list Module_ :=
  match r with
  | GetUsers | GetUser _ => [Authing]
  | LogOut _ => [Sessioning]
  | GetSessionUser _ | CreateUser _ _ _ | UpdateUsername _ _ | UpdatePassword _ _ _
  | DeleteUser _ | LogIn _ _ _ => [Sessioning; Authing]
  | GetPosts _ => [Authing; Posting; Responses]
  | CreatePost _ _ _ => [Sessioning; Posting; Responses]
  | UpdatePost _ _ _ _ | DeletePost _ _ => [Sessioning; Mongodb; Posting]
  | GetFriends _ | RemoveFriend _ _ | SendFriendRequest _ _ | RemoveFriendRequest _ _
  | AcceptFriendRequest _ _ | RejectFriendRequest _ _ => [Sessioning; Authing; Friending]
  | GetRequests _ => [Sessioning; Friending; Responses]
  | GetComments _ => [Mongodb; Commenting; Responses]
  | CreateComment _ _ _ _ => [Sessioning; Mongodb; Commenting; Responses]
  | UpdateComment _ _ _ _ | DeleteComment _ _ => [Sessioning; Mongodb; Commenting]
  | GetEvents _ | CreateEvent _ _ _ _ _ => [Sessioning; Scheduling; Responses]
  | UpdateEvent _ _ _ _ _ _ | DeleteEvent _ _ => [Sessioning; Mongodb; Scheduling]
  end.

(** The number of calls of a run that are calls to writing methods. *)
Definition write_count {W R : Type} (r : Run W R) : nat :=
  length (List.filter (fun ev => writes (ev_call ev)) (events r)).

(** The lines [createComment] logs, given whether [Sessioning.getUser]
    returned. *)
Definition createComment_lines {A : Type} (user : Result A) : list string :=
  match user with
  | inl _ => ["hey"]
  | inr _ => ["hey"; "hey again"]
  end.

(** The reference implementation with a formatter that cannot format: every
    call to [Responses] throws. *)
Definition failing_format : Concepts :=
  {| World := Model.State;
     call := fun c =>
       match c as c' return Model.State -> Result (resp c') * Model.State with
       | Responses_posts _ | Responses_post _ | Responses_friendRequests _
       | Responses_comments _ | Responses_comment _ | Responses_events _
       | Responses_event _ => Model.throw (NotFoundError "User not found!")
       | c' => Model.perform c'
       end |}.

(** ** Proof steps shared by the handlers *)

(** Use the known results of calls. *)
Ltac known_calls :=
  simpl;
  repeat match goal with
         | H : call ?C ?c ?w = _ |- context [call ?C ?c ?w] => rewrite H; simpl
         end.

(** Case analysis on the result of every call met while running a handler
    whose events are described by [H]. *)
Ltac case_calls H :=
  simpl in H;
  repeat match type of H with
         | context [call ?C ?c ?w] =>
             let Hc := fresh "Hcall" in
             destruct (call C c w) as [[? | ?] ?] eqn:Hc; simpl in H
         end.

(** All the ways to split a list of known events around one of them. *)
Ltac split_trace H :=
  lazymatch type of H with
  | [] = ?pre ++ _ :: _ => destruct pre; discriminate H
  | _ :: _ = ?pre ++ _ :: _ =>
      let x := fresh "x" in
      destruct pre as [| x pre]; simpl in H;
      [ injection H as <- <- | injection H as <- H; split_trace H ]
  end.

(** Every run of a handler, by cases on the results of its calls; [H]
    speaks of the events of the run. *)
Ltac all_runs H :=
  try unfold dispatch, Routes.getPosts in H;
  try match type of H with context [truthy ?a] => destruct (truthy a) eqn:? end;
  case_calls H.

(** The same when the goal speaks of the run. *)
Ltac all_runs_goal :=
  try unfold dispatch, Routes.getPosts;
  try match goal with |- context [truthy ?a] => destruct (truthy a) eqn:? end;
  simpl;
  repeat match goal with
         | |- context [call ?C ?c ?w] =>
             let Hc := fresh "Hcall" in
             destruct (call C c w) as [[? | ?] ?] eqn:Hc; simpl
         end.

(** ** Running programs: basic facts *)

Section ExecFacts.
Context (C : Concepts).

Lemma exec_Do_threw {R} (c : Call) (k : resp c -> Prog R) w e w' :
  call C c w = (inl e, w') ->
  exec C (Do c k) w =
    {| events := [threw c e]; console := []; final := w'; outcome := inl e |}.
Proof. intros H. simpl. rewrite H. reflexivity. Qed.

Lemma exec_Do_returned {R} (c : Call) (k : resp c -> Prog R) w v w' :
  call C c w = (inr v, w') ->
  exec C (Do c k) w =
    {| events := returned c :: events (exec C (k v) w');
       console := console (exec C (k v) w');
       final := final (exec C (k v) w');
       outcome := outcome (exec C (k v) w') |}.
Proof. intros H. simpl. rewrite H. reflexivity. Qed.

(** Without [try]/[catch], errors propagate. *)
Lemma catch_free_propagates {R} (p : Prog R) :
  catch_free p -> forall w, propagates (exec C p w).
Proof.
  induction 1 as [r | c k Hk IH | line k Hk IH]; intros w.
  - split; simpl.
    + intros pre ev post e Hev _. destruct pre; discriminate Hev.
    + intros e He. discriminate He.
  - simpl. destruct (call C c w) as [[e0 | v] w'] eqn:Hc.
    + split; simpl.
      * intros pre ev post e Hev Hthrew.
        destruct pre as [| x pre]; simpl in Hev.
        -- injection Hev as <- <-. simpl in Hthrew.
           injection Hthrew as <-. split; reflexivity.
        -- injection Hev as _ Hev. destruct pre; discriminate Hev.
      * intros e He. injection He as <-. exists [], c. reflexivity.
    + destruct (IH v w') as [IHa IHb]. split; simpl.
      * intros pre ev post e Hev Hthrew.
        destruct pre as [| x pre]; simpl in Hev.
        -- injection Hev as <- _. simpl in Hthrew. discriminate Hthrew.
        -- injection Hev as _ Hev. exact (IHa pre ev post e Hev Hthrew).
      * intros e He. destruct (IHb e He) as (pre & c' & Hev).
        exists (returned c :: pre), c'. rewrite Hev. reflexivity.
  - destruct (IH w) as [IHa IHb]. split; simpl.
    + exact IHa.
    + exact IHb.
Qed.

(** Replays compose. *)
Lemma genuine_app w1 l1 w2 l2 w3 :
  genuine C w1 l1 w2 -> genuine C w2 l2 w3 -> genuine C w1 (l1 ++ l2) w3.
Proof.
  induction 1 as [w | w c v wm evs w' Hc _ IH | w c e wm evs w' Hc _ IH];
    intros H2; simpl.
  - exact H2.
  - eapply genuine_returned; eauto.
  - eapply genuine_threw; eauto.
Qed.

(** The events of a run replay from its first world to its final world. *)
Lemma exec_genuine {R} (p : Prog R) :
  forall w, genuine C w (events (exec C p w)) (final (exec C p w)).
Proof.
  induction p as [r | c k IH | line k IH | body IHb handler IHh]; intros w; simpl.
  - constructor.
  - destruct (call C c w) as [[e | v] w1] eqn:Hc; simpl.
    + eapply genuine_threw; [exact Hc | constructor].
    + eapply genuine_returned; [exact Hc | apply IH].
  - apply IH.
  - destruct (outcome (exec C body w)) as [e | v] eqn:Hout; simpl.
    + eapply genuine_app; [apply IHb | apply IHh].
    + apply IHb.
Qed.

End ExecFacts.

(** No handler of [Routes] contains a [try]/[catch]. *)
Lemma dispatch_catch_free (r : Request) : catch_free (dispatch r).
Proof.
  destruct r; cbv -[truthy];
    try match goal with |- context [truthy ?a] => destruct (truthy a) end;
    repeat (constructor; intros).
Qed.

(** With a [try]/[catch] around the call the error would not reach the
    caller: [propagates] does tell the two apart. *)
Lemma swallowing_does_not_propagate :
  ~ propagates (Model.run (swallowing 30%N) Model.world0).
Proof.
  intros [Ha _].
  destruct (Ha [] (threw (Sessioning_getUser 30%N) (UnauthenticatedError "Must be logged in!"))
              [] (UnauthenticatedError "Must be logged in!")) as [_ Hout].
  - vm_compute. reflexivity.
  - reflexivity.
  - vm_compute in Hout. discriminate Hout.
Qed.

(** C8. Whatever the concept modules do, in every route handler an error
    thrown by a call leaves the handler as it is: the handler contains no
    [try]/[catch]; the call that throws is the last one it makes (nothing
    is retried or recovered); the error the handler throws is that error,
    and it throws no error of its own; the events are the calls as they
    were answered, so the world is left as the failing call left it. *)
Theorem C8_errors_propagate_unchanged (r : Request) :
  catch_free (dispatch r)
  /\ forall (C : Concepts) (w : World C),
      propagates (exec C (dispatch r) w)
      /\ genuine C w (events (exec C (dispatch r) w)) (final (exec C (dispatch r) w)).
Proof.
  split.
  - apply dispatch_catch_free.
  - intros C w. split.
    + apply catch_free_propagates, dispatch_catch_free.
    + apply exec_genuine.
Qed.

(** C1. Each of the six routes that change or delete a post, a comment or
    an event asserts the ownership of the target document by the session
    user before the mutating call. Whatever the concept modules do: when
    the assertion throws, the handler throws that error after the three
    calls [Sessioning.getUser], [new ObjectId] and the assertion, so the
    mutation is not reached; and in every run a call that changes or
    deletes a document comes right after these three calls have returned,
    the assertion being on that document and on the user of the session. *)
Theorem C1_owner_asserted_before_mutation
    (C : Concepts) (r : Request) (s : SessionDoc) (id : string) :
  owner_checked r = Some (s, id) ->
  forall w : World C,
    (forall u w1 oid w2 e w3,
        call C (Sessioning_getUser s) w = (inr u, w1) ->
        call C (ObjectId_new id) w1 = (inr oid, w2) ->
        call C (owner_assertion r oid u) w2 = (inl e, w3) ->
        events (exec C (dispatch r) w) =
          [returned (Sessioning_getUser s); returned (ObjectId_new id);
           threw (owner_assertion r oid u) e]
        /\ outcome (exec C (dispatch r) w) = inl e
        /\ final (exec C (dispatch r) w) = w3)
    /\ (forall pre ev post oid,
           events (exec C (dispatch r) w) = pre ++ ev :: post ->
           mutated (ev_call ev) = Some oid ->
           exists u w1 w2 v w3,
             call C (Sessioning_getUser s) w = (inr u, w1)
             /\ call C (ObjectId_new id) w1 = (inr oid, w2)
             /\ call C (owner_assertion r oid u) w2 = (inr v, w3)
             /\ pre = [returned (Sessioning_getUser s); returned (ObjectId_new id);
                       returned (owner_assertion r oid u)]).
Proof.
  intros Hr w.
  destruct r; try discriminate Hr; injection Hr as -> ->.
  all: split;
    [ intros u w1 oid w2 e w3 H1 H2 H3; simpl in H3; known_calls;
      repeat split; reflexivity
    | intros pre ev post oid Hev Hmut; case_calls Hev; split_trace Hev;
      try discriminate Hmut;
      injection Hmut as <-; eauto 10 ].
Qed.

(** A user who is not the author is turned away: bob (session 20) tries to
    edit alice's post. *)
Lemma C1_witness_bob_cannot_edit :
  events (Model.run (Routes.updatePost 20%N Model.id_a1 (Some "edited") None) Model.world0) =
    [returned (Sessioning_getUser 20%N); returned (ObjectId_new Model.id_a1);
     threw (Posting_assertAuthorIsUser 161%N Model.bob)
       (NotAllowedError "User is not the author of the post!")]
  /\ outcome (Model.run (Routes.updatePost 20%N Model.id_a1 (Some "edited") None) Model.world0) =
       inl (NotAllowedError "User is not the author of the post!")
  /\ final (Model.run (Routes.updatePost 20%N Model.id_a1 (Some "edited") None) Model.world0) =
       Model.world0.
Proof.
  apply (proj1 (C1_owner_asserted_before_mutation Model.concepts
                  (UpdatePost 20%N Model.id_a1 (Some "edited") None) 20%N Model.id_a1
                  eq_refl Model.world0)
           Model.bob Model.world0 161%N Model.world0
           (NotAllowedError "User is not the author of the post!") Model.world0);
    reflexivity.
Defined.

(** C3. [createUser] checks [Sessioning.isLoggedOut] first. Whatever the
    concept modules do: when the check throws (the session is logged in),
    the handler throws that error and the check is the only call it made,
    so no account is created; when the check returns, the handler calls
    [Authing.create username password] and its result and final world are
    those of that call. *)
Theorem C3_createUser_requires_logged_out
    (C : Concepts) (s : SessionDoc) (username password : string) (w : World C) :
  (forall e w1,
      call C (Sessioning_isLoggedOut s) w = (inl e, w1) ->
      events (exec C (dispatch (CreateUser s username password)) w) =
        [threw (Sessioning_isLoggedOut s) e]
      /\ outcome (exec C (dispatch (CreateUser s username password)) w) = inl e
      /\ final (exec C (dispatch (CreateUser s username password)) w) = w1)
  /\ (forall v w1,
         call C (Sessioning_isLoggedOut s) w = (inr v, w1) ->
         calls (exec C (dispatch (CreateUser s username password)) w) =
           [Sessioning_isLoggedOut s; Authing_create username password]
         /\ outcome (exec C (dispatch (CreateUser s username password)) w) =
              fst (call C (Authing_create username password) w1)
         /\ final (exec C (dispatch (CreateUser s username password)) w) =
              snd (call C (Authing_create username password) w1)).
Proof.
  split.
  - intros e w1 H. known_calls. repeat split; reflexivity.
  - intros v w1 H. unfold calls. known_calls.
    destruct (call C (Authing_create username password) w1) as [[e | r] w2];
      repeat split; reflexivity.
Qed.

(** Alice is logged in on session 10: she cannot create an account, and the
    accounts are what they were. *)
Lemma C3_witness_logged_in :
  (events (Model.run (Routes.createUser 10%N "carol" "pw-c") Model.world0) =
     [threw (Sessioning_isLoggedOut 10%N) (NotAllowedError "Must be logged out!")]
   /\ outcome (Model.run (Routes.createUser 10%N "carol" "pw-c") Model.world0) =
        inl (NotAllowedError "Must be logged out!")
   /\ final (Model.run (Routes.createUser 10%N "carol" "pw-c") Model.world0) = Model.world0)
  /\ Model.users (final (Model.run (Routes.createUser 10%N "carol" "pw-c") Model.world0)) =
       Model.users Model.world0.
Proof.
  split.
  - apply (proj1 (C3_createUser_requires_logged_out Model.concepts 10%N "carol" "pw-c"
                    Model.world0)
             (NotAllowedError "Must be logged out!") Model.world0).
    reflexivity.
  - reflexivity.
Defined.

(** C4. Every handler that acts for the user of its session calls
    [Sessioning.getUser session] before any other call. Whatever the
    concept modules do: the first call of the run is that one, and when it
    throws (the session is logged out) the handler throws that error and
    has made no other call. *)
Theorem C4_session_user_first
    (C : Concepts) (r : Request) (s : SessionDoc) :
  acting_session r = Some s ->
  forall w : World C,
    (exists ev rest,
        events (exec C (dispatch r) w) = ev :: rest
        /\ ev_call ev = Sessioning_getUser s)
    /\ (forall e w1,
           call C (Sessioning_getUser s) w = (inl e, w1) ->
           events (exec C (dispatch r) w) = [threw (Sessioning_getUser s) e]
           /\ outcome (exec C (dispatch r) w) = inl e
           /\ final (exec C (dispatch r) w) = w1).
Proof.
  intros Hr w.
  destruct r; try discriminate Hr; injection Hr as ->.
  all: split;
    [ simpl; destruct (call C (Sessioning_getUser s) w) as [[e | u] w1];
      simpl; eauto
    | intros e w1 H; known_calls; repeat split; reflexivity ].
Qed.

(** Session 30 has no user: creating a comment stops at [getUser], after
    the first line was logged. *)
Lemma C4_witness_logged_out_comment :
  (events (Model.run (Routes.createComment 30%N Model.id_a1 "hi" None) Model.world0) =
     [threw (Sessioning_getUser 30%N) (UnauthenticatedError "Must be logged in!")]
   /\ outcome (Model.run (Routes.createComment 30%N Model.id_a1 "hi" None) Model.world0) =
        inl (UnauthenticatedError "Must be logged in!")
   /\ final (Model.run (Routes.createComment 30%N Model.id_a1 "hi" None) Model.world0) =
        Model.world0)
  /\ console (Model.run (Routes.createComment 30%N Model.id_a1 "hi" None) Model.world0) =
       ["hey"].
Proof.
  split.
  - apply (proj2 (C4_session_user_first Model.concepts
                    (CreateComment 30%N Model.id_a1 "hi" None) 30%N eq_refl Model.world0)
             (UnauthenticatedError "Must be logged in!") Model.world0).
    reflexivity.
  - reflexivity.
Defined.

(** The three handlers that receive a session and act for no user never
    ask for the user of the session. *)
Lemma lifecycle_routes_do_not_call_getUser (C : Concepts) (r : Request) (w : World C) :
  match r with CreateUser _ _ _ | LogIn _ _ _ | LogOut _ => True | _ => False end ->
  forall ev s, In ev (events (exec C (dispatch r) w)) -> ev_call ev <> Sessioning_getUser s.
Proof.
  intros Hr ev s Hin.
  destruct r; try contradiction; case_calls Hin;
    repeat (destruct Hin as [<- | Hin]; [discriminate |]); contradiction.
Qed.

(** C6. The five routes on friends and friend requests resolve the
    username of the path with [Authing.getUserByUsername] before they call
    [Friending]. Whatever the concept modules do: when the username does
    not resolve (the lookup throws), the handler throws that error after
    the two calls [Sessioning.getUser] and the lookup, without a call to
    [Friending]; in every run a call to [Friending] comes right after
    these two calls have returned, and is the call of the route on the user
    of the session and the id of the user found; and when the username
    resolves, the handler does make that call, as its third and last: it
    leaves the world that call leaves and throws exactly when it throws. *)
Theorem C6_username_resolved_before_friending
    (C : Concepts) (r : Request) (s : SessionDoc) (name : string) :
  friend_route r = Some (s, name) ->
  forall w : World C,
    (forall u w1 e w2,
        call C (Sessioning_getUser s) w = (inr u, w1) ->
        call C (Authing_getUserByUsername name) w1 = (inl e, w2) ->
        events (exec C (dispatch r) w) =
          [returned (Sessioning_getUser s); threw (Authing_getUserByUsername name) e]
        /\ outcome (exec C (dispatch r) w) = inl e
        /\ final (exec C (dispatch r) w) = w2)
    /\ (forall pre ev post,
           events (exec C (dispatch r) w) = pre ++ ev :: post ->
           module_of (ev_call ev) = Friending ->
           exists u w1 d w2,
             call C (Sessioning_getUser s) w = (inr u, w1)
             /\ call C (Authing_getUserByUsername name) w1 = (inr d, w2)
             /\ pre = [returned (Sessioning_getUser s);
                       returned (Authing_getUserByUsername name)]
             /\ ev_call ev = friending_call r u (_id d))
    /\ (forall u w1 d w2,
           call C (Sessioning_getUser s) w = (inr u, w1) ->
           call C (Authing_getUserByUsername name) w1 = (inr d, w2) ->
           calls (exec C (dispatch r) w) =
             [Sessioning_getUser s; Authing_getUserByUsername name;
              friending_call r u (_id d)]
           /\ final (exec C (dispatch r) w) = snd (call C (friending_call r u (_id d)) w2)
           /\ forall e, outcome (exec C (dispatch r) w) = inl e <->
                        fst (call C (friending_call r u (_id d)) w2) = inl e).
Proof.
  intros Hr w.
  destruct r; try discriminate Hr; injection Hr as -> ->.
  all: split; [| split];
    [ intros u w1 e w2 H1 H2; known_calls; repeat split; reflexivity
    | intros pre ev post Hev Hmod; case_calls Hev; split_trace Hev;
      try discriminate Hmod; simpl; eauto 10
    | intros u w1 d w2 H1 H2; unfold calls; known_calls;
      match goal with
      | |- context [call ?C' ?c ?w'] => destruct (call C' c w') as [[e0 | x] w3]
      end; simpl;
      (split; [reflexivity | split; [reflexivity |]]);
      intros e; split; intros H; first [exact H | discriminate H] ].
Qed.

(** Alice asks to befriend "zed", who has no account: the lookup throws and
    no request is recorded. She asks to unfriend bob: the name resolves and
    [Friending.removeFriend] is called with her id and his. *)
Lemma C6_witness_unknown_username :
  (events (Model.run (Routes.sendFriendRequest 10%N "zed") Model.world0) =
     [returned (Sessioning_getUser 10%N);
      threw (Authing_getUserByUsername "zed") (NotFoundError "User not found!")]
   /\ outcome (Model.run (Routes.sendFriendRequest 10%N "zed") Model.world0) =
        inl (NotFoundError "User not found!")
   /\ final (Model.run (Routes.sendFriendRequest 10%N "zed") Model.world0) = Model.world0)
  /\ Model.requests (final (Model.run (Routes.sendFriendRequest 10%N "zed") Model.world0)) = ∅
  /\ calls (exec Model.concepts (dispatch (RemoveFriend 10%N "bob")) Model.world0) =
       [Sessioning_getUser 10%N; Authing_getUserByUsername "bob";
        Friending_removeFriend Model.alice Model.bob].
Proof.
  split; [| split].
  - apply (proj1 (C6_username_resolved_before_friending Model.concepts
                    (SendFriendRequest 10%N "zed") 10%N "zed" eq_refl Model.world0)
             Model.alice Model.world0 (NotFoundError "User not found!") Model.world0);
      reflexivity.
  - reflexivity.
  - apply (proj2 (proj2 (C6_username_resolved_before_friending Model.concepts
                           (RemoveFriend 10%N "bob") 10%N "bob" eq_refl Model.world0))
             Model.alice Model.world0 {| _id := Model.bob; username := "bob" |}
             Model.world0 eq_refl eq_refl).
Defined.

(** C7, as the specification states it, fails: comment creation is not
    registered under [/posts/:postId/comments]. *)
Lemma C7_counterexample_createComment_path :
  route (CreateComment 10%N Model.id_a1 "hi" None) <> (POST, "/posts/:postId/comments").
Proof. discriminate. Qed.

(** C7 (amended). The comments of a post are read at
    [GET /posts/:postId/comments]; a comment is created at
    [POST /comments/:postId], updated at [PATCH /comments/:id] and deleted
    at [DELETE /comments/:id]; no handler is registered for
    [POST /posts/:postId/comments], the only handler under
    [/posts/:postId/comments] being [getComments]. *)
Theorem C7_comment_routes :
  (forall postId, route (GetComments postId) = (GET, "/posts/:postId/comments"))
  /\ (forall s postId content options,
         route (CreateComment s postId content options) = (POST, "/comments/:postId"))
  /\ (forall s id content options,
         route (UpdateComment s id content options) = (PATCH, "/comments/:id"))
  /\ (forall s id, route (DeleteComment s id) = (DELETE, "/comments/:id"))
  /\ (forall r, route r <> (POST, "/posts/:postId/comments"))
  /\ (forall r, snd (route r) = "/posts/:postId/comments" ->
                exists postId, r = GetComments postId).
Proof.
  repeat split; try reflexivity.
  - intros r. destruct r; discriminate.
  - intros r Hr. destruct r; try discriminate Hr. eauto.
Qed.

(** C9. [deleteUser] ends the session before it deletes the account.
    Whatever the concept modules do: for a session with a user, when
    [Sessioning.end] has returned and [Authing.delete] throws, the handler
    throws that error; [Sessioning.end session] was made, and returned,
    before [Authing.delete user]; no call follows the failure, so nothing
    ties the session to its user again, and the world is left as the
    failed deletion left it. *)
Theorem C9_deleteUser_ends_session_before_deleting
    (C : Concepts) (s : SessionDoc) (w : World C) u w1 v w2 e w3 :
  call C (Sessioning_getUser s) w = (inr u, w1) ->
  call C (Sessioning_end s) w1 = (inr v, w2) ->
  call C (Authing_delete u) w2 = (inl e, w3) ->
  events (exec C (dispatch (DeleteUser s)) w) =
    [returned (Sessioning_getUser s); returned (Sessioning_end s);
     threw (Authing_delete u) e]
  /\ outcome (exec C (dispatch (DeleteUser s)) w) = inl e
  /\ final (exec C (dispatch (DeleteUser s)) w) = w3.
Proof.
  intros H1 H2 H3. known_calls. repeat split; reflexivity.
Qed.

(** Session 40 is tied to an account that is gone: the deletion fails, and
    the session has lost its user all the same. *)
Lemma C9_witness_failed_deletion :
  (events (Model.run (Routes.deleteUser 40%N) Model.world0) =
     [returned (Sessioning_getUser 40%N); returned (Sessioning_end 40%N);
      threw (Authing_delete 9%N) (NotFoundError "User not found!")]
   /\ outcome (Model.run (Routes.deleteUser 40%N) Model.world0) =
        inl (NotFoundError "User not found!")
   /\ final (Model.run (Routes.deleteUser 40%N) Model.world0) =
        Model.with_sessions (delete 40%N) Model.world0)
  /\ Model.sessions Model.world0 !! 40%N = Some 9%N
  /\ Model.sessions (final (Model.run (Routes.deleteUser 40%N) Model.world0)) !! 40%N = None.
Proof.
  split; [| split].
  - apply (C9_deleteUser_ends_session_before_deleting Model.concepts 40%N Model.world0
             9%N Model.world0 tt (Model.with_sessions (delete 40%N) Model.world0)
             (NotFoundError "User not found!")
             (Model.with_sessions (delete 40%N) Model.world0));
      reflexivity.
  - reflexivity.
  - reflexivity.
Defined.

(** C10. [logIn] starts the session only after the credentials were
    accepted. Whatever the concept modules do: when [Authing.authenticate]
    throws, the handler throws that error, that call is the only one it
    made (no call to [Sessioning]) and the world is left as the failed
    authentication left it; and in every run a call to [Sessioning.start]
    comes right after [Authing.authenticate] has returned, for the session
    of the request and the id of the authenticated user. *)
Theorem C10_logIn_starts_session_after_authentication
    (C : Concepts) (s : SessionDoc) (username password : string) (w : World C) :
  (forall e w1,
      call C (Authing_authenticate username password) w = (inl e, w1) ->
      events (exec C (dispatch (LogIn s username password)) w) =
        [threw (Authing_authenticate username password) e]
      /\ outcome (exec C (dispatch (LogIn s username password)) w) = inl e
      /\ final (exec C (dispatch (LogIn s username password)) w) = w1)
  /\ (forall pre ev post s' u',
         events (exec C (dispatch (LogIn s username password)) w) = pre ++ ev :: post ->
         ev_call ev = Sessioning_start s' u' ->
         exists d w1,
           call C (Authing_authenticate username password) w = (inr d, w1)
           /\ pre = [returned (Authing_authenticate username password)]
           /\ s' = s /\ u' = _id d).
Proof.
  split.
  - intros e w1 H. known_calls. repeat split; reflexivity.
  - intros pre ev post s' u' Hev Hstart. case_calls Hev; split_trace Hev;
      try discriminate Hstart; injection Hstart as <- <-; eauto 10.
Qed.

(** A wrong password for alice on the fresh session 30: the sessions are
    what they were. *)
Lemma C10_witness_wrong_password :
  (events (Model.run (Routes.logIn 30%N "alice" "guess") Model.world0) =
     [threw (Authing_authenticate "alice" "guess")
        (NotAllowedError "Username or password is incorrect.")]
   /\ outcome (Model.run (Routes.logIn 30%N "alice" "guess") Model.world0) =
        inl (NotAllowedError "Username or password is incorrect.")
   /\ final (Model.run (Routes.logIn 30%N "alice" "guess") Model.world0) = Model.world0)
  /\ Model.sessions (final (Model.run (Routes.logIn 30%N "alice" "guess") Model.world0)) =
       Model.sessions Model.world0.
Proof.
  split.
  - apply (proj1 (C10_logIn_starts_session_after_authentication Model.concepts 30%N
                    "alice" "guess" Model.world0)
             (NotAllowedError "Username or password is incorrect.") Model.world0).
    reflexivity.
  - reflexivity.
Defined.

(** ** The handlers on the reference implementation *)

(** C5. On the reference implementation, a [deleteUser] that returns has
    deleted the account of the user of the session and nothing else: the
    session had a user, the calls were [Sessioning.getUser session],
    [Sessioning.end session] and [Authing.delete] of that user, and
    afterwards the session has no user and that user has no account. *)
Theorem C5_deleteUser_deletes_self_and_ends_session
    (st : Model.State) (s : SessionDoc) (v : Value) :
  outcome (Model.run (Routes.deleteUser s) st) = inr v ->
  exists u,
    Model.sessions st !! s = Some u
    /\ events (Model.run (Routes.deleteUser s) st) =
         [returned (Sessioning_getUser s); returned (Sessioning_end s);
          returned (Authing_delete u)]
    /\ Model.sessions (final (Model.run (Routes.deleteUser s) st)) !! s = None
    /\ Model.users (final (Model.run (Routes.deleteUser s) st)) !! u = None.
Proof.
  unfold Model.run. simpl. unfold Model.sessioning_getUser.
  destruct (Model.sessions st !! s) as [u |] eqn:Hs; simpl; [| discriminate].
  unfold Model.authing_delete. simpl.
  destruct (Model.users st !! u) as [r |] eqn:Hu; simpl; [| discriminate].
  intros _. exists u. repeat split.
  - apply lookup_delete_eq.
  - apply lookup_delete_eq.
Qed.

(** Alice deletes her account from session 10. *)
Lemma C5_witness_alice_deletes_herself :
  exists u,
    Model.sessions Model.world0 !! 10%N = Some u
    /\ events (Model.run (Routes.deleteUser 10%N) Model.world0) =
         [returned (Sessioning_getUser 10%N); returned (Sessioning_end 10%N);
          returned (Authing_delete u)]
    /\ Model.sessions (final (Model.run (Routes.deleteUser 10%N) Model.world0)) !! 10%N = None
    /\ Model.users (final (Model.run (Routes.deleteUser 10%N) Model.world0)) !! u = None.
Proof.
  apply (C5_deleteUser_deletes_self_and_ends_session Model.world0 10%N
           (Model.message "User deleted!")).
  reflexivity.
Defined.





(** ** The routes the properties speak of *)

(** The owner-checked handlers are those registered at the six paths. *)
Lemma owner_checked_iff_path (r : Request) :
  is_Some (owner_checked r) <-> In (route r) owner_checked_paths.
Proof.
  split.
  - intros [[s id] Hr]. destruct r; try discriminate Hr; simpl; tauto.
  - intros Hin. destruct r; simpl in Hin;
      repeat (destruct Hin as [Hin | Hin]; [try discriminate Hin |]);
      try contradiction; simpl; eauto.
Qed.

(** The friend handlers with a username are those registered at the five
    paths. *)
Lemma friend_route_iff_path (r : Request) :
  is_Some (friend_route r) <-> In (route r) friend_paths.
Proof.
  split.
  - intros [[s name] Hr]. destruct r; try discriminate Hr; simpl; tauto.
  - intros Hin. destruct r; simpl in Hin;
      repeat (destruct Hin as [Hin | Hin]; [try discriminate Hin |]);
      try contradiction; simpl; eauto.
Qed.

(** No other handler changes or deletes a post, a comment or an event. *)
Lemma only_owner_checked_routes_mutate (C : Concepts) (r : Request) (w : World C) ev oid :
  In ev (events (exec C (dispatch r) w)) ->
  mutated (ev_call ev) = Some oid ->
  is_Some (owner_checked r).
Proof.
  intros Hin Hmut.
  destruct r; simpl; eauto; exfalso;
    try unfold dispatch, Routes.getPosts in Hin;
    try match type of Hin with context [truthy ?a] => destruct (truthy a) end;
    case_calls Hin;
    repeat (destruct Hin as [<- | Hin]; [discriminate Hmut |]); contradiction.
Qed.

(** No handler without a username parameter of a friend calls a mutating
    [Friending] method; [getFriends] and [getRequests] only read. *)
Lemma friending_calls_of_other_routes (C : Concepts) (r : Request) (w : World C) ev :
  In ev (events (exec C (dispatch r) w)) ->
  module_of (ev_call ev) = Friending ->
  is_Some (friend_route r)
  \/ (exists u, ev_call ev = Friending_getFriends u)
  \/ (exists u, ev_call ev = Friending_getRequests u).
Proof.
  intros Hin Hmod.
  destruct r; simpl; eauto;
    try unfold dispatch, Routes.getPosts in Hin;
    try match type of Hin with context [truthy ?a] => destruct (truthy a) end;
    case_calls Hin;
    repeat (destruct Hin as [<- | Hin]; [try discriminate Hmod; eauto |]); contradiction.
Qed.

(** ** What the reference implementation adds *)

(** A session without a user is turned away by every handler that acts for
    the session user, and the world is left as it was. *)
Lemma model_logged_out_rejected (st : Model.State) (r : Request) (s : SessionDoc) :
  acting_session r = Some s ->
  Model.sessions st !! s = None ->
  events (Model.run (dispatch r) st) =
    [threw (Sessioning_getUser s) (UnauthenticatedError "Must be logged in!")]
  /\ outcome (Model.run (dispatch r) st) = inl (UnauthenticatedError "Must be logged in!")
  /\ final (Model.run (dispatch r) st) = st.
Proof.
  intros Hr Hs.
  destruct r; try discriminate Hr; injection Hr as ->;
    unfold Model.run; simpl; unfold Model.sessioning_getUser; rewrite Hs;
    repeat split; reflexivity.
Qed.

(** A session with a user cannot create an account. *)
Lemma model_logged_in_cannot_create (st : Model.State) (s : SessionDoc) (u : ObjectId)
    (username password : string) :
  Model.sessions st !! s = Some u ->
  events (Model.run (Routes.createUser s username password) st) =
    [threw (Sessioning_isLoggedOut s) (NotAllowedError "Must be logged out!")]
  /\ final (Model.run (Routes.createUser s username password) st) = st.
Proof.
  intros Hs. unfold Model.run. simpl. unfold Model.sessioning_isLoggedOut.
  rewrite Hs. split; reflexivity.
Qed.

(** A user who does not own the document is turned away by each of the six
    owner-checked routes, and the world is left as it was. *)
Lemma model_non_owner_rejected (st : Model.State) (r : Request) (s : SessionDoc)
    (id : string) (u oid owner : ObjectId) :
  owner_checked r = Some (s, id) ->
  Model.sessions st !! s = Some u ->
  Model.objectId_new id st = (inr oid, st) ->
  owner_of st r oid = Some owner ->
  owner <> u ->
  (exists m, outcome (Model.run (dispatch r) st) = inl (NotAllowedError m))
  /\ final (Model.run (dispatch r) st) = st
  /\ forall ev, In ev (events (Model.run (dispatch r) st)) -> mutated (ev_call ev) = None.
Proof.
  intros Hr Hs Hid Howner Hne.
  apply N.eqb_neq in Hne.
  destruct r; try discriminate Hr; injection Hr as -> ->;
    unfold Model.run; simpl; unfold Model.sessioning_getUser; rewrite Hs; simpl;
    rewrite Hid; simpl; simpl in Howner.
  1, 2: unfold Model.posting_assertAuthorIsUser;
    destruct (Model.posts st !! oid) as [p |]; [| discriminate Howner];
    injection Howner as Howner; rewrite Howner, Hne; simpl.
  3, 4: unfold Model.commenting_assertAuthorIsUser;
    destruct (Model.comments st !! oid) as [p |]; [| discriminate Howner];
    injection Howner as Howner; rewrite Howner, Hne; simpl.
  5, 6: unfold Model.scheduling_assertUserIsOwner;
    destruct (Model.scheduled st !! oid) as [p |]; [| discriminate Howner];
    injection Howner as Howner; rewrite Howner, Hne; simpl.
  all: split; [eexists; reflexivity | split; [reflexivity |]];
    intros ev Hin; repeat (destruct Hin as [<- | Hin]; [reflexivity |]); contradiction.
Qed.

(** ** Runs on the small world *)

Example alice_edits_her_post :
  let r := Model.run (Routes.updatePost 10%N Model.id_a1 (Some "edited") None) Model.world0 in
  calls r = [Sessioning_getUser 10%N; ObjectId_new Model.id_a1;
             Posting_assertAuthorIsUser 161%N Model.alice;
             Posting_update 161%N (Some "edited") None]
  /\ outcome r = inr (Model.message "Post successfully updated!")
  /\ Model.post_content <$> Model.posts (final r) !! 161%N = Some "edited".
Proof. repeat split; vm_compute; reflexivity. Qed.

Example bob_cannot_delete_alices_comment :
  let r := Model.run (Routes.deleteComment 20%N Model.id_c1) Model.world0 in
  outcome r = inl (NotAllowedError "User is not the author of the comment!")
  /\ final r = Model.world0.
Proof. split; reflexivity. Qed.

Example bob_cannot_move_alices_event :
  let r := Model.run (Routes.updateEvent 20%N Model.id_e1 None (Some "") None (Some social))
             Model.world0 in
  calls r = [Sessioning_getUser 20%N; ObjectId_new Model.id_e1;
             Scheduling_assertUserIsOwner 225%N Model.bob]
  /\ final r = Model.world0.
Proof. split; reflexivity. Qed.

Example malformed_id_stops_before_the_assertion :
  let r := Model.run (Routes.deletePost 10%N "a1") Model.world0 in
  events r = [returned (Sessioning_getUser 10%N);
              threw (ObjectId_new "a1") Model.invalid_id]
  /\ final r = Model.world0.
Proof. split; reflexivity. Qed.

Example empty_start_time_is_no_update :
  calls (Model.run (Routes.updateEvent 10%N Model.id_e1 None (Some "") None None)
           Model.world0) =
    [Sessioning_getUser 10%N; ObjectId_new Model.id_e1;
     Scheduling_assertUserIsOwner 225%N Model.alice;
     Scheduling_update 225%N None None None None].
Proof. reflexivity. Qed.

Example log_in_then_current_user :
  let r1 := Model.run (Routes.logIn 30%N "bob" "pw-b") Model.world0 in
  let r2 := Model.run (Routes.getSessionUser 30%N) (final r1) in
  outcome r1 = inr (VObject [("msg", VString "Logged in!")])
  /\ outcome r2 = inr (user_json {| _id := Model.bob; username := "bob" |}).
Proof. split; reflexivity. Qed.

(** ** Further properties of the handlers *)

(** Each handler calls only the modules of its footprint. *)
Lemma footprint_sound (C : Concepts) (r : Request) (w : World C) ev :
  In ev (events (exec C (dispatch r) w)) ->
  In (module_of (ev_call ev)) (footprint r).
Proof.
  intros Hin.
  destruct r; all_runs Hin;
    repeat (destruct Hin as [<- | Hin]; [simpl; tauto |]); contradiction.
Qed.

(** X1. A handler hands to [Sessioning] no session but the one it was
    given: whatever the concept modules do, every call to [Sessioning] in
    a run is about the session of the request, and the four handlers that
    receive no session make no such call. *)
Theorem X1_only_the_session_of_the_request
    (C : Concepts) (r : Request) (w : World C) (ev : Event) (s : SessionDoc) :
  In ev (events (exec C (dispatch r) w)) ->
  session_arg (ev_call ev) = Some s ->
  session_of r = Some s.
Proof.
  intros Hin Hs.
  destruct r; all_runs Hin;
    repeat (destruct Hin as [<- | Hin];
            [simpl in Hs; first [discriminate Hs | injection Hs as <-; reflexivity] |]);
    contradiction.
Qed.

Lemma X1_witness_logOut :
  session_of (LogOut 10%N) = Some 10%N.
Proof.
  apply (X1_only_the_session_of_the_request Model.concepts (LogOut 10%N) Model.world0
           (returned (Sessioning_end 10%N)) 10%N).
  - simpl. left. reflexivity.
  - reflexivity.
Defined.

(** X2. A handler that acts for the user of its session acts for no one
    else: whatever the concept modules do, the user argument of every call
    it makes is the id that [Sessioning.getUser session] returned. *)
Theorem X2_calls_are_made_for_the_session_user
    (C : Concepts) (r : Request) (s : SessionDoc) (w : World C) (ev : Event) (u : ObjectId) :
  acting_session r = Some s ->
  In ev (events (exec C (dispatch r) w)) ->
  actor (ev_call ev) = Some u ->
  exists w1, call C (Sessioning_getUser s) w = (inr u, w1).
Proof.
  intros Hr Hin Hu.
  destruct r; try discriminate Hr; injection Hr as ->; all_runs Hin;
    repeat (destruct Hin as [<- | Hin];
            [simpl in Hu; first [discriminate Hu | injection Hu as <-; eauto] |]);
    contradiction.
Qed.

Lemma X2_witness_accept_for_bob :
  exists st, Model.perform (Sessioning_getUser 20%N) Model.world0 = (inr Model.bob, st).
Proof.
  apply (X2_calls_are_made_for_the_session_user Model.concepts
           (AcceptFriendRequest 20%N "alice") 20%N Model.world0
           (threw (Friending_acceptRequest Model.alice Model.bob)
              (NotFoundError "Friend request does not exist!")) Model.bob).
  - reflexivity.
  - simpl. right. right. left. reflexivity.
  - reflexivity.
Defined.

(** X3. The handlers registered with [Router.get] only read: whatever the
    concept modules do, none of their calls is a call to a writing
    method. *)
Theorem X3_GET_handlers_only_read
    (C : Concepts) (r : Request) (w : World C) (ev : Event) :
  fst (route r) = GET ->
  In ev (events (exec C (dispatch r) w)) ->
  writes (ev_call ev) = false.
Proof.
  intros Hr Hin.
  destruct r; try discriminate Hr; all_runs Hin;
    repeat (destruct Hin as [<- | Hin]; [reflexivity |]); contradiction.
Qed.

Lemma X3_witness_getFriends :
  writes (Authing_idsToUsernames []) = false.
Proof.
  apply (X3_GET_handlers_only_read Model.concepts (GetFriends 10%N) Model.world0
           (returned (Authing_idsToUsernames []))).
  - reflexivity.
  - simpl. right. right. left. reflexivity.
Defined.

(** X4. A request makes at most one call to a writing method, [deleteUser]
    apart, which makes at most two ([Sessioning.end], then
    [Authing.delete]): whatever the concept modules do, it is the only
    handler that can fail between two writes. *)
Theorem X4_at_most_one_write (C : Concepts) (r : Request) (w : World C) :
  write_count (exec C (dispatch r) w) <= match r with DeleteUser _ => 2 | _ => 1 end.
Proof.
  unfold write_count. destruct r; all_runs_goal; lia.
Qed.

(** X5. Sessions start and end in three handlers only: whatever the concept
    modules do, a call to [Sessioning.start] is made by [logIn] and a call
    to [Sessioning.end] by [logOut] or [deleteUser], for the session of the
    request; in particular [createUser] does not log the new user in. *)
Theorem X5_session_lifecycle_routes
    (C : Concepts) (r : Request) (w : World C) (ev : Event) :
  In ev (events (exec C (dispatch r) w)) ->
  (forall s u, ev_call ev = Sessioning_start s u -> exists name password, r = LogIn s name password)
  /\ (forall s, ev_call ev = Sessioning_end s -> r = LogOut s \/ r = DeleteUser s).
Proof.
  intros Hin.
  destruct r; all_runs Hin;
    repeat (destruct Hin as [<- | Hin];
            [split; [intros s' u' Hc | intros s' Hc]; simpl in Hc;
             first [discriminate Hc | injection Hc as <-; eauto | injection Hc as <- <-; eauto] |]);
    contradiction.
Qed.

Lemma X5_witness_deleteUser :
  DeleteUser 10%N = LogOut 10%N \/ DeleteUser 10%N = DeleteUser 10%N.
Proof.
  apply (proj2 (X5_session_lifecycle_routes Model.concepts (DeleteUser 10%N) Model.world0
                  (returned (Sessioning_end 10%N))
                  (or_intror (or_introl eq_refl)))).
  reflexivity.
Defined.

(** X6. [deleteUser] deletes one account and nothing else: whatever the
    concept modules do, its calls are [Sessioning.getUser] and
    [Sessioning.end] on its session and [Authing.delete] of the user that
    [getUser] returned; it makes no call to [Posting], [Commenting],
    [Scheduling] or [Friending], so what the user wrote, scheduled and
    befriended is left to those modules. *)
Theorem X6_deleteUser_deletes_the_account_only
    (C : Concepts) (s : SessionDoc) (w : World C) (ev : Event) :
  In ev (events (exec C (dispatch (DeleteUser s)) w)) ->
  ev_call ev = Sessioning_getUser s
  \/ ev_call ev = Sessioning_end s
  \/ exists u w1, call C (Sessioning_getUser s) w = (inr u, w1)
                  /\ ev_call ev = Authing_delete u.
Proof.
  intros Hin. all_runs Hin;
    repeat (destruct Hin as [<- | Hin]; [simpl; eauto 6 |]); contradiction.
Qed.

Lemma X6_witness_alice :
  Authing_delete Model.alice = Sessioning_getUser 10%N
  \/ Authing_delete Model.alice = Sessioning_end 10%N
  \/ exists u st, Model.perform (Sessioning_getUser 10%N) Model.world0 = (inr u, st)
                  /\ Authing_delete Model.alice = Authing_delete u.
Proof.
  apply (X6_deleteUser_deletes_the_account_only Model.concepts 10%N Model.world0
           (returned (Authing_delete Model.alice))).
  simpl. right. right. left. reflexivity.
Defined.

(** X7. The handlers on comments never ask [Posting] anything: whatever the
    concept modules do, reading, creating, updating or deleting a comment
    makes no call to [Posting], so that the post named by [:postId] is not
    looked up by the route layer. *)
Theorem X7_comment_routes_never_call_posting
    (C : Concepts) (r : Request) (w : World C) (ev : Event) :
  comment_route r = true ->
  In ev (events (exec C (dispatch r) w)) ->
  module_of (ev_call ev) <> Posting.
Proof.
  intros Hr Hin Hmod.
  apply footprint_sound in Hin. rewrite Hmod in Hin.
  destruct r; try discriminate Hr; simpl in Hin;
    repeat (destruct Hin as [Hin | Hin]; [discriminate Hin |]); contradiction.
Qed.

Lemma X7_witness_comment_on_missing_post :
  module_of (Commenting_create 255%N Model.alice "hi" None) <> Posting.
Proof.
  apply (X7_comment_routes_never_call_posting Model.concepts
           (CreateComment 10%N "0000000000000000000000ff" "hi" None) Model.world0
           (returned (Commenting_create 255%N Model.alice "hi" None))).
  - reflexivity.
  - simpl. right. right. left. reflexivity.
Defined.

(** X8. Only [createComment] writes to the console: whatever the concept
    modules do, it logs "hey", and "hey again" once [Sessioning.getUser]
    has returned; every other handler logs nothing. *)
Theorem X8_console_lines (C : Concepts) (r : Request) (w : World C) :
  console (exec C (dispatch r) w) =
    match r with
    | CreateComment s _ _ _ => createComment_lines (fst (call C (Sessioning_getUser s) w))
    | _ => []
    end.
Proof.
  destruct r; all_runs_goal; reflexivity.
Qed.

(** X9. [getPosts] filters by author only for a non-empty [author]:
    whatever the concept modules do, an empty [author] runs as an absent
    one, and then the first call is [Posting.getPosts] and [Authing] is
    not called; a non-empty one is looked up first with
    [Authing.getUserByUsername], no call to [Posting] being made when the
    lookup throws, and [Posting.getByAuthor] being called with the [_id]
    found when it returns. *)
Theorem X9_getPosts_author_filter (C : Concepts) (w : World C) :
  exec C (dispatch (GetPosts (Some ""))) w = exec C (dispatch (GetPosts None)) w
  /\ (exists ev rest,
         events (exec C (dispatch (GetPosts None)) w) = ev :: rest
         /\ ev_call ev = Posting_getPosts
         /\ forall ev', In ev' rest -> module_of (ev_call ev') = Responses)
  /\ (forall author, author <> "" ->
        (forall e w1,
            call C (Authing_getUserByUsername author) w = (inl e, w1) ->
            events (exec C (dispatch (GetPosts (Some author))) w) =
              [threw (Authing_getUserByUsername author) e]
            /\ outcome (exec C (dispatch (GetPosts (Some author))) w) = inl e)
        /\ (forall d w1,
               call C (Authing_getUserByUsername author) w = (inr d, w1) ->
               exists ev rest,
                 events (exec C (dispatch (GetPosts (Some author))) w) =
                   returned (Authing_getUserByUsername author) :: ev :: rest
                 /\ ev_call ev = Posting_getByAuthor (_id d))).
Proof.
  split; [reflexivity | split].
  - simpl. destruct (call C Posting_getPosts w) as [[e | posts] w1]; simpl.
    + eexists _, _. split; [reflexivity | split; [reflexivity |]].
      intros ev' [].
    + destruct (call C (Responses_posts posts) w1) as [[e | v] w2]; simpl;
        (eexists _, _; split; [reflexivity | split; [reflexivity |]]);
        intros ev' [<- | []]; reflexivity.
  - intros author Hne.
    assert (Ht : truthy (Some author) = Some author).
    { destruct author; [contradiction | reflexivity]. }
    unfold dispatch, Routes.getPosts. rewrite Ht. split.
    + intros e w1 H. known_calls. split; reflexivity.
    + intros d w1 H. known_calls.
      destruct (call C (Posting_getByAuthor (_id d)) w1) as [[e | posts] w2]; simpl; eauto.
Qed.

(** X10. [updateEvent] treats an empty [startTime] or [endTime] as an
    absent one, and no other field so: whatever the concept modules do, the
    run is the same with [""] as with [undefined] for either time, and a
    call to [Scheduling.update] carries the name and the type as they were
    given (an empty name included) and, for a non-empty time, the [Date] of
    its text. *)
Theorem X10_updateEvent_empty_times
    (C : Concepts) (s : SessionDoc) (id : string) (name startTime endTime : option string)
    (type : option EventType) (w : World C) :
  exec C (dispatch (UpdateEvent s id name (Some "") endTime type)) w =
    exec C (dispatch (UpdateEvent s id name None endTime type)) w
  /\ exec C (dispatch (UpdateEvent s id name startTime (Some "") type)) w =
       exec C (dispatch (UpdateEvent s id name startTime None type)) w
  /\ forall ev oid n a b t,
       In ev (events (exec C (dispatch (UpdateEvent s id name startTime endTime type)) w)) ->
       ev_call ev = Scheduling_update oid n a b t ->
       n = name /\ t = type
       /\ a = match startTime with
              | Some "" | None => None
              | Some text => Some (Date_new text)
              end
       /\ b = match endTime with
              | Some "" | None => None
              | Some text => Some (Date_new text)
              end.
Proof.
  split; [reflexivity | split; [reflexivity |]].
  intros ev oid n a b t Hin Hc.
  all_runs Hin;
    repeat (destruct Hin as [<- | Hin];
            [simpl in Hc; first [discriminate Hc | injection Hc as <- <- <- <- <-] |]);
    try contradiction.
  all: repeat split; try reflexivity.
  all: match goal with
       | |- _ <$> truthy ?x = _ => destruct x as [[| ? ?] |]; reflexivity
       end.
Qed.

(** X11. The three handlers that create a document reply with the message
    of the [create] call and the document as [Responses] formatted it, and
    do not undo the creation when formatting fails: whatever the concept
    modules do, once [create] has returned, a formatter that throws makes
    the handler throw that error with the formatting as its last call, the
    world being left as it is with the document created. *)
Theorem X11_create_then_format (C : Concepts) (s : SessionDoc) (w : World C) u w1 :
  call C (Sessioning_getUser s) w = (inr u, w1) ->
  (forall content options cr w2,
      call C (Posting_create u content options) w1 = (inr cr, w2) ->
      (forall e w3,
          call C (Responses_post (doc cr)) w2 = (inl e, w3) ->
          events (exec C (dispatch (CreatePost s content options)) w) =
            [returned (Sessioning_getUser s); returned (Posting_create u content options);
             threw (Responses_post (doc cr)) e]
          /\ outcome (exec C (dispatch (CreatePost s content options)) w) = inl e
          /\ final (exec C (dispatch (CreatePost s content options)) w) = w3)
      /\ (forall v w3,
             call C (Responses_post (doc cr)) w2 = (inr v, w3) ->
             outcome (exec C (dispatch (CreatePost s content options)) w) =
               inr (VObject [("msg", VString (msg cr)); ("post", v)])
             /\ final (exec C (dispatch (CreatePost s content options)) w) = w3))
  /\ (forall postId content options oid w2 cr w3,
         call C (ObjectId_new postId) w1 = (inr oid, w2) ->
         call C (Commenting_create oid u content options) w2 = (inr cr, w3) ->
         (forall e w4,
             call C (Responses_comment (doc cr)) w3 = (inl e, w4) ->
             events (exec C (dispatch (CreateComment s postId content options)) w) =
               [returned (Sessioning_getUser s); returned (ObjectId_new postId);
                returned (Commenting_create oid u content options);
                threw (Responses_comment (doc cr)) e]
             /\ outcome (exec C (dispatch (CreateComment s postId content options)) w) = inl e
             /\ final (exec C (dispatch (CreateComment s postId content options)) w) = w4)
         /\ (forall v w4,
                call C (Responses_comment (doc cr)) w3 = (inr v, w4) ->
                outcome (exec C (dispatch (CreateComment s postId content options)) w) =
                  inr (VObject [("msg", VString (msg cr)); ("comment", v)])
                /\ final (exec C (dispatch (CreateComment s postId content options)) w) = w4))
  /\ (forall name startTime endTime type cr w2,
         call C (Scheduling_create u name (Date_new startTime) (Date_new endTime) type) w1 =
           (inr cr, w2) ->
         (forall e w3,
             call C (Responses_event (doc cr)) w2 = (inl e, w3) ->
             events (exec C (dispatch (CreateEvent s name startTime endTime type)) w) =
               [returned (Sessioning_getUser s);
                returned (Scheduling_create u name (Date_new startTime) (Date_new endTime) type);
                threw (Responses_event (doc cr)) e]
             /\ outcome (exec C (dispatch (CreateEvent s name startTime endTime type)) w) = inl e
             /\ final (exec C (dispatch (CreateEvent s name startTime endTime type)) w) = w3)
         /\ (forall v w3,
                call C (Responses_event (doc cr)) w2 = (inr v, w3) ->
                outcome (exec C (dispatch (CreateEvent s name startTime endTime type)) w) =
                  inr (VObject [("msg", VString (msg cr)); ("event", v)])
                /\ final (exec C (dispatch (CreateEvent s name startTime endTime type)) w) = w3)).
Proof.
  intros Hu. repeat split; intros; known_calls; reflexivity.
Qed.

(** With a formatter that throws, alice's post is stored and her request
    fails. *)
Lemma X11_witness_post_kept :
  outcome (exec failing_format (dispatch (CreatePost 10%N "draft" None)) Model.world0) =
    inl (NotFoundError "User not found!")
  /\ Model.post_content <$>
       Model.posts (final (exec failing_format (dispatch (CreatePost 10%N "draft" None))
                             Model.world0)) !! 256%N = Some "draft".
Proof.
  destruct (proj1 (X11_create_then_format failing_format 10%N Model.world0
                     Model.alice Model.world0 eq_refl)
              "draft" None _ _ eq_refl) as [Hfail _].
  destruct (Hfail (NotFoundError "User not found!") _ eq_refl) as (_ & Hout & Hfinal).
  split; [exact Hout | rewrite Hfinal; reflexivity].
Defined.

(** X12. [logIn] after the credentials were accepted: whatever the concept
    modules do, when [Authing.authenticate] has returned a user, the
    handler calls [Sessioning.start] with the session and the [_id] of
    that user; it replies "Logged in!" when that call returns, and throws
    its error, the credentials having been accepted, when it throws. *)
Theorem X12_logIn_after_authentication
    (C : Concepts) (s : SessionDoc) (username password : string) (w : World C) d w1 :
  call C (Authing_authenticate username password) w = (inr d, w1) ->
  (forall v w2,
      call C (Sessioning_start s (_id d)) w1 = (inr v, w2) ->
      events (exec C (dispatch (LogIn s username password)) w) =
        [returned (Authing_authenticate username password);
         returned (Sessioning_start s (_id d))]
      /\ outcome (exec C (dispatch (LogIn s username password)) w) =
           inr (VObject [("msg", VString "Logged in!")])
      /\ final (exec C (dispatch (LogIn s username password)) w) = w2)
  /\ (forall e w2,
         call C (Sessioning_start s (_id d)) w1 = (inl e, w2) ->
         events (exec C (dispatch (LogIn s username password)) w) =
           [returned (Authing_authenticate username password);
            threw (Sessioning_start s (_id d)) e]
         /\ outcome (exec C (dispatch (LogIn s username password)) w) = inl e
         /\ final (exec C (dispatch (LogIn s username password)) w) = w2).
Proof.
  intros Hd. repeat split; intros; known_calls; reflexivity.
Qed.

Lemma X12_witness_bob_logs_in :
  events (exec Model.concepts (dispatch (LogIn 30%N "bob" "pw-b")) Model.world0) =
    [returned (Authing_authenticate "bob" "pw-b");
     returned (Sessioning_start 30%N Model.bob)]
  /\ outcome (exec Model.concepts (dispatch (LogIn 30%N "bob" "pw-b")) Model.world0) =
       inr (VObject [("msg", VString "Logged in!")])
  /\ final (exec Model.concepts (dispatch (LogIn 30%N "bob" "pw-b")) Model.world0) =
       Model.with_sessions (insert 30%N Model.bob) Model.world0.
Proof.
  apply (proj1 (X12_logIn_after_authentication Model.concepts 30%N "bob" "pw-b"
                  Model.world0 {| _id := Model.bob; username := "bob" |} Model.world0
                  eq_refl)
           tt (Model.with_sessions (insert 30%N Model.bob) Model.world0)).
  reflexivity.
Defined.

(** X13. The handlers that end with [return f(...)] reply with what their
    last call returned, unchanged: whatever the concept modules do, when
    such a handler returns, all its calls returned (no event of the run
    threw), and its reply is the result of the last of them, made in the
    world the previous calls left, the final world being the one that call
    left. *)
Theorem X13_reply_is_the_last_result
    (C : Concepts) (r : Request) (w : World C) (v : Value) :
  passes_through r = true ->
  outcome (exec C (dispatch r) w) = inr v ->
  (exists pre c w0 x,
      events (exec C (dispatch r) w) = pre ++ [returned c]
      /\ genuine C w pre w0
      /\ call C c w0 = (inr x, final (exec C (dispatch r) w))
      /\ v = to_value c x)
  /\ (forall ev, In ev (events (exec C (dispatch r) w)) -> ev_threw ev = None).
Proof.
  intros Hr Hout. revert Hout.
  destruct r; try discriminate Hr; all_runs_goal; intros Hout;
    try discriminate Hout; injection Hout as <-.
  all: split;
    [| intros ev Hin; repeat (destruct Hin as [<- | Hin]; [reflexivity |]); contradiction].
  all: first
         [ eexists [], _, _, _; split; [reflexivity |]
         | eexists [_], _, _, _; split; [reflexivity |]
         | eexists [_; _], _, _, _; split; [reflexivity |]
         | eexists [_; _; _], _, _, _; split; [reflexivity |] ];
    (split; [repeat (eapply genuine_returned; [eassumption |]); apply genuine_nil |]);
    split; [eassumption | reflexivity].
Qed.

Lemma X13_witness_current_user :
  (exists pre c w0 x,
      events (exec Model.concepts (dispatch (GetSessionUser 20%N)) Model.world0) =
        pre ++ [returned c]
      /\ genuine Model.concepts Model.world0 pre w0
      /\ call Model.concepts c w0 =
           (inr x, final (exec Model.concepts (dispatch (GetSessionUser 20%N)) Model.world0))
      /\ user_json {| _id := Model.bob; username := "bob" |} = to_value c x)
  /\ (forall ev,
         In ev (events (exec Model.concepts (dispatch (GetSessionUser 20%N)) Model.world0)) ->
         ev_threw ev = None).
Proof.
  apply (X13_reply_is_the_last_result Model.concepts (GetSessionUser 20%N) Model.world0
           (user_json {| _id := Model.bob; username := "bob" |}));
    reflexivity.
Defined.

(** X14. An owner is let through to the mutation, with the fields of the
    request: whatever the concept modules do, for each of the six
    owner-checked routes, when the assertion returns, the handler makes one
    more call, the update or delete of the parsed id with the content,
    options, name, times and type it was given; the world it leaves is the
    one that call leaves, and it throws exactly when that call throws. *)
Theorem X14_owner_reaches_the_mutation
    (C : Concepts) (r : Request) (s : SessionDoc) (id : string) (w : World C)
    u w1 oid w2 v w3 :
  owner_checked r = Some (s, id) ->
  call C (Sessioning_getUser s) w = (inr u, w1) ->
  call C (ObjectId_new id) w1 = (inr oid, w2) ->
  call C (owner_assertion r oid u) w2 = (inr v, w3) ->
  calls (exec C (dispatch r) w) =
    [Sessioning_getUser s; ObjectId_new id; owner_assertion r oid u; mutation_call r oid]
  /\ final (exec C (dispatch r) w) = snd (call C (mutation_call r oid) w3)
  /\ forall e, outcome (exec C (dispatch r) w) = inl e <->
               fst (call C (mutation_call r oid) w3) = inl e.
Proof.
  intros Hr H1 H2 H3.
  destruct r; try discriminate Hr; injection Hr as -> ->; simpl in H3;
    unfold calls; known_calls;
    match goal with
    | |- context [call C ?c w3] => destruct (call C c w3) as [[e0 | x] w4]
    end; simpl;
    (split; [reflexivity | split; [reflexivity |]]);
    intros e; split; intros H; first [exact H | discriminate H].
Qed.

Lemma X14_witness_alice_retitles_her_event :
  calls (exec Model.concepts
           (dispatch (UpdateEvent 10%N Model.id_e1 (Some "") (Some "") None (Some social)))
           Model.world0) =
    [Sessioning_getUser 10%N; ObjectId_new Model.id_e1;
     Scheduling_assertUserIsOwner 225%N Model.alice;
     Scheduling_update 225%N (Some "") None None (Some social)].
Proof.
  apply (proj1 (X14_owner_reaches_the_mutation Model.concepts
                  (UpdateEvent 10%N Model.id_e1 (Some "") (Some "") None (Some social))
                  10%N Model.id_e1 Model.world0
                  Model.alice Model.world0 225%N Model.world0 tt Model.world0
                  eq_refl eq_refl eq_refl eq_refl)).
Defined.

(** X15. A path id that is no [ObjectId] stops the handler before any
    store is touched: whatever the concept modules do, in the eight
    handlers that parse an id, the string handed to [new ObjectId] is the
    path parameter; when the constructor throws, the handler throws that
    error, no call follows, and the calls before it, if any, are calls to
    [Sessioning]. *)
Theorem X15_malformed_id_stops_the_handler
    (C : Concepts) (r : Request) (id : string) (w : World C)
    (pre post : list Event) (ev : Event) (id' : string) (e : Err) :
  id_param r = Some id ->
  events (exec C (dispatch r) w) = pre ++ ev :: post ->
  ev = threw (ObjectId_new id') e ->
  id' = id /\ post = []
  /\ outcome (exec C (dispatch r) w) = inl e
  /\ forall ev', In ev' pre -> module_of (ev_call ev') = Sessioning.
Proof.
  intros Hr Hev Hthrew. revert Hev.
  destruct r; try discriminate Hr; injection Hr as ->; all_runs_goal; intros Hev;
    split_trace Hev; unfold threw, returned in Hthrew;
    try discriminate Hthrew; injection Hthrew as <- <-.
  all: repeat split; try reflexivity;
    intros ev' Hin; repeat (destruct Hin as [<- | Hin]; [reflexivity |]); contradiction.
Qed.

Lemma X15_witness_short_id :
  "a1" = "a1" /\ @nil Event = []
  /\ outcome (exec Model.concepts (dispatch (DeletePost 10%N "a1")) Model.world0) =
       inl Model.invalid_id
  /\ forall ev', In ev' [returned (Sessioning_getUser 10%N)] ->
                 module_of (ev_call ev') = Sessioning.
Proof.
  apply (X15_malformed_id_stops_the_handler Model.concepts (DeletePost 10%N "a1") "a1"
           Model.world0 [returned (Sessioning_getUser 10%N)] []
           (threw (ObjectId_new "a1") Model.invalid_id)
           "a1" Model.invalid_id);
    reflexivity.
Defined.

(** X16. [getFriends] names the friends that [Friending] listed: whatever
    the concept modules do, the ids handed to [Authing.idsToUsernames] are
    the list that [Friending.getFriends] returned for the user of the
    session. *)
Theorem X16_getFriends_names_the_listed_friends
    (C : Concepts) (s : SessionDoc) (w : World C) (ev : Event) (ids : list ObjectId) :
  In ev (events (exec C (dispatch (GetFriends s)) w)) ->
  ev_call ev = Authing_idsToUsernames ids ->
  exists u w1 w2,
    call C (Sessioning_getUser s) w = (inr u, w1)
    /\ call C (Friending_getFriends u) w1 = (inr ids, w2).
Proof.
  intros Hin Hc.
  all_runs Hin;
    repeat (destruct Hin as [<- | Hin];
            [simpl in Hc; first [discriminate Hc | injection Hc as <-; eauto] |]);
    contradiction.
Qed.

Lemma X16_witness_friends_after_accepting :
  exists u st1 st2,
    Model.perform (Sessioning_getUser 10%N)
      (Model.with_friendships (fun _ => {[ (Model.alice, Model.bob) ]}) Model.world0) =
      (inr u, st1)
    /\ Model.perform (Friending_getFriends u) st1 = (inr [Model.bob], st2).
Proof.
  apply (X16_getFriends_names_the_listed_friends Model.concepts 10%N
           (Model.with_friendships (fun _ => {[ (Model.alice, Model.bob) ]}) Model.world0)
           (returned (Authing_idsToUsernames [Model.bob])) [Model.bob]).
  - vm_compute. right. right. left. reflexivity.
  - reflexivity.
Defined.

Example twelve_byte_id_is_parsed :
  calls (Model.run (Routes.deletePost 10%N "aaaaaaaaaaaa") Model.world0) =
    [Sessioning_getUser 10%N; ObjectId_new "aaaaaaaaaaaa";
     Posting_assertAuthorIsUser 30137771623073100966955934049%N Model.alice]
  /\ Model.objectId_new "616161616161616161616161" Model.world0 =
       Model.objectId_new "aaaaaaaaaaaa" Model.world0.
Proof. split; vm_compute; reflexivity. Qed.
